(** * kubedock: volumes, networks and entity matching

    A shallow embedding of the volume and network request handlers
    (packages [routes/docker] and [routes/libpod]), of [types.Volume]'s
    filter matching and of the backend's PersistentVolumeClaim lifecycle
    (package [backend]), followed by the properties proved about them.

    Go strings are byte sequences: they are modelled by [string], whose
    characters are 8-bit [ascii] values, so [String.length] is Go's [len].
    Go maps with string keys are [gmap string _]; a nil map and an empty
    map read alike and are both the empty [gmap]. *)

From Stdlib Require Import ZArith Ascii String List Bool.
From stdpp Require Import base option list strings pretty gmap.

Local Open Scope string_scope.

(** Closes a decidable goal on concrete data by evaluating its decision. *)
Ltac computed := apply (bool_decide_unpack _); vm_compute; exact I.

(** ** Errors *)

(** [metav1.StatusReason], as far as the backend tells reasons apart. *)
Inductive StatusReason :=
| StatusReasonUnknown
| StatusReasonNotFound
| StatusReasonAlreadyExists
| StatusReasonOther (reason : string).

(** Go's [error] values that occur in this code: plain messages
    ([errors.New], [fmt.Errorf] without [%w]), the API server's status errors,
    and [fmt.Errorf] with [%w], which keeps the wrapped error. *)
Inductive error :=
| errorString (s : string)
| StatusError (reason : StatusReason) (message : string)
| wrapError (msg : string) (err : error).

#[global] Instance StatusReason_eq_dec : EqDecision StatusReason.
Proof. solve_decision. Defined.

#[global] Instance error_eq_dec : EqDecision error.
Proof. solve_decision. Defined.

(** [err.Error()] *)
Definition Error (e : error) : string :=
  match e with
  | errorString s => s
  | StatusError _ m => m
  | wrapError m _ => m
  end.

(** A call that returns [(T, error)]. *)
Inductive result (T : Type) :=
| Ok (t : T)
| Err (e : error).
Arguments Ok {T} t.
Arguments Err {T} e.

Module fmt.
(** [fmt.Errorf(format, ...)] without a [%w] verb; [msg] is the formatted text. *)
Definition Errorf (msg : string) : error := errorString msg.

(** [fmt.Errorf("<prefix>%w", err)]: the message ends with the wrapped
    error's message and the wrapped error stays reachable. *)
Definition Errorfw (prefix : string) (err : error) : error :=
  wrapError (prefix ++ Error err) err.
End fmt.

Module errors.
(** [apierrors.ReasonForError]: the reason of the first status error on the
    chain of wrapped errors, [StatusReasonUnknown] when there is none. *)
Fixpoint ReasonForError (err : error) : StatusReason :=
  match err with
  | errorString _ => StatusReasonUnknown
  | StatusError r _ => r
  | wrapError _ e => ReasonForError e
  end.

Definition IsAlreadyExists (err : error) : bool :=
  bool_decide (ReasonForError err = StatusReasonAlreadyExists).

Definition IsNotFound (err : error) : bool :=
  bool_decide (ReasonForError err = StatusReasonNotFound).
End errors.

(** ** Logging ([klog]) *)

Inductive LogEntry :=
| Infof (msg : string)
| Warningf (msg : string)
| Errorf (msg : string).

(** [klog.V(level)]: whether messages of that level are written, which the
    process's verbosity flag decides. *)
Class Verbosity := {
  klog_V : Z -> bool
}.

(** ** What the code takes from outside *)

(** [time.Time], as nanoseconds since the epoch. *)
Definition Time := Z.

(** [resource.Quantity] *)
Record Quantity := { quantity : string }.

(** Go's standard library and the Kubernetes API machinery, where this code
    calls them and their behaviour is not fixed by the repository. *)
Class GoLib := {
  (** [regexp.MatchString(pattern, s)] *)
  regexp_MatchString : string -> string -> bool * option error;
  (** [strings.Map(unicode.ToLower, s)], the path of [strings.ToLower] for
      text that is not plain ASCII *)
  unicode_ToLower : string -> string;
  (** [t.Format(layout)] *)
  time_Format : Time -> string -> string;
  (** [resource.ParseQuantity]; [resource.MustParse] panics where it fails *)
  resource_ParseQuantity : string -> option Quantity
}.

Module strings.
Definition isUpperASCII (c : ascii) : bool :=
  ((65 <=? Z.of_N (N_of_ascii c)) && (Z.of_N (N_of_ascii c) <=? 90))%Z.

(** [c >= utf8.RuneSelf] *)
Definition notASCII (c : ascii) : bool := (128 <=? Z.of_N (N_of_ascii c))%Z.

Fixpoint isASCII (s : string) : bool :=
  match s with
  | EmptyString => true
  | String c s' => if notASCII c then false else isASCII s'
  end.

(** [c += 'a' - 'A'] on an upper-case letter *)
Definition lowerByte (c : ascii) : ascii :=
  if isUpperASCII c then ascii_of_N (N_of_ascii c + 32)%N else c.

Fixpoint mapBytes (f : ascii -> ascii) (s : string) : string :=
  match s with
  | EmptyString => EmptyString
  | String c s' => String (f c) (mapBytes f s')
  end.

(** [strings.ToLower]: ASCII-only text is lowered byte by byte, anything
    else goes through [unicode.ToLower]. *)
Definition ToLower `{GoLib} (s : string) : string :=
  if isASCII s then mapBytes lowerByte s else unicode_ToLower s.
End strings.

(** ** Package [types] *)

Module Volume.
Record t := {
  ID : string;
  ShortID : string;
  Name : string;
  Driver : string;
  Labels : gmap string string;
  Mountpoint : string;
  Created : Time
}.

Definition setMountpoint (v : t) (m : string) : t :=
  {| ID := ID v; ShortID := ShortID v; Name := Name v; Driver := Driver v;
     Labels := Labels v; Mountpoint := m; Created := Created v |}.

Section Match.
Context `{GoLib}.

Definition nameMatch (v : t) (key : string) : bool * option error :=
  (* Fast path, exact match *)
  if bool_decide (Name v = key) then (true, None)
  else
    (* Fallback to regexp *)
    let '(match_, err) := regexp_MatchString key (Name v) in
    match err with
    | Some e => (false, Some e)
    | None => (match_, None)
    end.

(** [Match] will match given type with given key value pair. *)
Definition Match (v : t) (typ key val : string) : bool * option error :=
  if bool_decide (typ = "name") then nameMatch v key
  else if bool_decide (typ = "driver") then (bool_decide (Driver v = key), None)
  else if bool_decide (typ ≠ "label") then (true, None)
  else
    match Labels v !! key with
    | None => (false, None)
    | Some vv => (bool_decide (vv = val), None)
    end.
End Match.
End Volume.

Module Network.
Record t := {
  ID : string;
  Name : string;
  Labels : gmap string string;
  Created : Time
}.
End Network.

Module Container.
Record t := {
  ID : string;
  Name : string;
  (** the IDs of the networks the container is attached to *)
  Networks : gset string;
  NetworkAliases : list string
}.

Definition setNetworks (c : t) (n : gset string) : t :=
  {| ID := ID c; Name := Name c; Networks := n;
     NetworkAliases := NetworkAliases c |}.

Definition setNetworkAliases (c : t) (a : list string) : t :=
  {| ID := ID c; Name := Name c; Networks := Networks c;
     NetworkAliases := a |}.

(** Modelled from the spec: [Container.ConnectNetwork] is not among the
    sources. It adds membership of the network, and connecting again
    changes nothing. *)
Definition ConnectNetwork (c : t) (id : string) : t :=
  setNetworks c ({[ id ]} ∪ Networks c).

(** Modelled from the spec: [Container.DisconnectNetwork] is not among the
    sources. It removes membership of the network and fails with a
    not-found condition when the container was not a member. *)
Definition DisconnectNetwork (c : t) (id : string) : t * option error :=
  if bool_decide (id ∈ Networks c)
  then (setNetworks c (Networks c ∖ {[ id ]}), None)
  else (c, Some (fmt.Errorf "container is not connected to network")).
End Container.

(** What the code takes from packages of the repository that are not among
    the sources. *)
Class Repo := {
  (** [Network.IsPredefined] of package [types]: the networks the system
      manages itself *)
  IsPredefined : Network.t -> bool;
  (** [instance.toKubernetesName] of package [backend] *)
  toKubernetesName : string -> string;
  (** package [config] *)
  config_SystemLabels : gmap string string;
  config_DefaultLabels : gmap string string;
  config_DefaultAnnotations : gmap string string
}.

(** ** Package [backend] *)

Module corev1.
Inductive PersistentVolumeAccessMode :=
| ReadWriteOnce
| ReadOnlyMany
| ReadWriteMany.

(** The access mode is a string type; this is how [%s] prints it. *)
Definition accessModeString (m : PersistentVolumeAccessMode) : string :=
  match m with
  | ReadWriteOnce => "ReadWriteOnce"
  | ReadOnlyMany => "ReadOnlyMany"
  | ReadWriteMany => "ReadWriteMany"
  end.

(** A [PersistentVolumeClaim], with the fields [CreateVolume] fills in. *)
Record PersistentVolumeClaim := {
  Name : string;
  Namespace : string;
  Labels : gmap string string;
  Annotations : gmap string string;
  AccessModes : list PersistentVolumeAccessMode;
  (** [Spec.Resources.Requests[ResourceStorage]] *)
  StorageRequest : Quantity;
  StorageClassName : option string
}.
End corev1.

(** The claims client, [cli.CoreV1().PersistentVolumeClaims(namespace)], over
    a cluster state [K]. [Create]'s returned object is dropped by the caller,
    so only its error is kept. *)
Class ClaimsClient (K : Type) := {
  pvcCreate : string -> corev1.PersistentVolumeClaim -> K -> option error * K;
  pvcDelete : string -> string -> K -> option error * K
}.

(** [PersistentVolumeClaims(namespace).List] with a label selector; it reads
    the cluster. *)
Class ClaimsLister (K : Type) := {
  pvcList : string -> string -> K -> result (list corev1.PersistentVolumeClaim)
}.

(** The part of a pod that [addNamedVolumes] works on: the volumes of the pod
    and the volume mounts of its containers. *)
Module VolumeSource.
(** [corev1.VolumeSource]: a claim, or a source of another kind. *)
Inductive t :=
| PersistentVolumeClaim (ClaimName : string) (ReadOnly : bool)
| Other (kind : string).
End VolumeSource.

Module PodVolume.
Record t := {
  Name : string;
  Source : VolumeSource.t
}.
End PodVolume.

Module VolumeMount.
Record t := {
  Name : string;
  MountPath : string;
  ReadOnly : bool;
  SubPath : string
}.
End VolumeMount.

Module PodContainer.
Record t := {
  Name : string;
  Image : string;
  VolumeMounts : list VolumeMount.t
}.
End PodContainer.

Module Pod.
Record t := {
  Volumes : list PodVolume.t;
  Containers : list PodContainer.t
}.
End Pod.

(** How a call ends: it returns, or it panics. *)
Inductive outcome (A : Type) :=
| Returns (a : A)
| Panics.
Arguments Returns {A} a.
Arguments Panics {A}.

Module backend.
Record instance := {
  namespace : string;
  storageClass : string;
  volumeSize : string;
  volumeAccessMode : string
}.

Section Backend.
Context `{GoLib} `{Repo} {K : Type} `{ClaimsClient K}.

(** [getVolumePVCName] returns a deterministic PVC name for the given volume. *)
Definition getVolumePVCName (in_ : instance) (vol : Volume.t) : string :=
  let name := "kubedock-vol-" ++ toKubernetesName (Volume.Name vol) in
  if (63 <? String.length name)%nat then substring 0 63 name else name.

(** [parseAccessMode] converts a string access mode to the k8s
    PersistentVolumeAccessMode. *)
Definition parseAccessMode (in_ : instance) (mode : string)
  : corev1.PersistentVolumeAccessMode :=
  if bool_decide (mode = "ReadWriteMany") || bool_decide (mode = "RWX")
  then corev1.ReadWriteMany
  else if bool_decide (mode = "ReadOnlyMany") || bool_decide (mode = "ROX")
  then corev1.ReadOnlyMany
  else corev1.ReadWriteOnce.

(** The labels of the claim: system labels, overridden by the default
    labels, and the volume's short ID. *)
Definition claimLabels (vol : Volume.t) : gmap string string :=
  <["kubedock.volumeid" := Volume.ShortID vol]>
    (config_DefaultLabels ∪ config_SystemLabels).

Definition claimAnnotations (vol : Volume.t) : gmap string string :=
  <["kubedock.volumename" := Volume.Name vol]> config_DefaultAnnotations.

(** The claim [CreateVolume] builds, once the size has parsed. *)
Definition claimFor (in_ : instance) (vol : Volume.t) (size : Quantity)
  : corev1.PersistentVolumeClaim :=
  {| corev1.Name := getVolumePVCName in_ vol;
     corev1.Namespace := namespace in_;
     corev1.Labels := claimLabels vol;
     corev1.Annotations := claimAnnotations vol;
     corev1.AccessModes := [parseAccessMode in_ (volumeAccessMode in_)];
     corev1.StorageRequest := size;
     (* Set explicit storage class if configured *)
     corev1.StorageClassName :=
       if bool_decide (storageClass in_ ≠ "") then Some (storageClass in_)
       else None |}.

(** [err != nil && !errors.IsAlreadyExists(err)] *)
Definition createFailed (err : option error) : option error :=
  match err with
  | Some e => if negb (errors.IsAlreadyExists e) then Some e else None
  | None => None
  end.

(** [CreateVolume] will create a PersistentVolumeClaim in the kubernetes
    namespace for the given volume. The volume is passed by pointer: the
    volume returned here is the caller's volume after the call. *)
Definition CreateVolume (in_ : instance) (vol : Volume.t)
    (k : K) (log : list LogEntry)
  : outcome (Volume.t * option error * K * list LogEntry) :=
  match resource_ParseQuantity (volumeSize in_) with
  | None => Panics
  | Some size =>
    let pvcName := getVolumePVCName in_ vol in
    let accessMode := parseAccessMode in_ (volumeAccessMode in_) in
    let pvc := claimFor in_ vol size in
    let '(err, k') := pvcCreate (namespace in_) pvc k in
    match createFailed err with
    | Some e =>
      Returns (vol,
               Some (fmt.Errorfw ("failed to create PVC for volume "
                                    ++ Volume.Name vol ++ ": ") e),
               k', log)
    | None =>
      let vol' := Volume.setMountpoint vol
                    ("/var/lib/kubedock/volumes/" ++ Volume.Name vol) in
      Returns (vol', None, k',
               (log ++ [Infof ("created PVC " ++ pvcName ++ " for volume "
                  ++ Volume.Name vol ++ " in namespace " ++ namespace in_
                  ++ " (storageClass=" ++ storageClass in_
                  ++ ", size=" ++ volumeSize in_
                  ++ ", accessMode=" ++ corev1.accessModeString accessMode
                  ++ ")")])%list)
    end
  end.

(** [err != nil && !errors.IsNotFound(err)] *)
Definition deleteFailed (err : option error) : option error :=
  match err with
  | Some e => if negb (errors.IsNotFound e) then Some e else None
  | None => None
  end.

(** [DeleteVolume] will delete the PersistentVolumeClaim associated with
    the given volume from the kubernetes namespace. *)
Definition DeleteVolume (in_ : instance) (vol : Volume.t)
    (k : K) (log : list LogEntry) : option error * K * list LogEntry :=
  let pvcName := getVolumePVCName in_ vol in
  let '(err, k') := pvcDelete (namespace in_) pvcName k in
  match deleteFailed err with
  | Some e =>
    (Some (fmt.Errorfw ("failed to delete PVC for volume "
                          ++ Volume.Name vol ++ ": ") e), k', log)
  | None =>
    (None, k',
     (log ++ [Infof ("deleted PVC " ++ pvcName ++ " for volume "
                       ++ Volume.Name vol)])%list)
  end.
End Backend.

Section Bulk.
Context `{Repo} `{Verbosity} {K : Type} `{ClaimsClient K} `{ClaimsLister K}.

(** The loop of [DeleteVolumes] over the claims that were listed. *)
Fixpoint deleteClaims (items : list corev1.PersistentVolumeClaim)
    (k : K) (log : list LogEntry) : K * list LogEntry :=
  match items with
  | [] => (k, log)
  | pvc :: rest =>
    let log1 := if klog_V 3
                then (log ++ [Infof ("deleting PVC: " ++ corev1.Name pvc)])%list
                else log in
    let '(err, k') := pvcDelete (corev1.Namespace pvc) (corev1.Name pvc) k in
    let log2 := match err with
                | Some e =>
                  (log1 ++ [Errorf ("error deleting PVC " ++ corev1.Name pvc
                                      ++ ": " ++ Error e)])%list
                | None => log1
                end in
    deleteClaims rest k' log2
  end.

(** [DeleteVolumes] will delete all kubedock-owned PVCs in the namespace. *)
Definition DeleteVolumes (in_ : instance) (selector : string)
    (k : K) (log : list LogEntry) : option error * K * list LogEntry :=
  match pvcList (namespace in_) selector k with
  | Err err => (Some err, k, log)
  | Ok items =>
    let '(k', log') := deleteClaims items k log in
    (None, k', log')
  end.

(** [addNamedVolumes] adds PVC-backed volume mounts to the pod spec for
    containers that reference named (non-bind) volumes. Go leaves the order
    in which [range] visits a map open: [namedVolumes] is the map's entries,
    mount path and volume, in the order of the visit. Indexing
    [pod.Spec.Containers[0]] panics when the pod has no container. *)
Fixpoint addNamedVolumes (in_ : instance) (tainr : Container.t) (pod : Pod.t)
    (namedVolumes : list (string * Volume.t)) : outcome Pod.t :=
  match namedVolumes with
  | [] => Returns pod
  | (mountPath, vol) :: rest =>
    let volName := "nv-" ++ toKubernetesName (Volume.Name vol) in
    let pvcName := getVolumePVCName in_ vol in
    let volumes :=
      (Pod.Volumes pod ++
         [{| PodVolume.Name := volName;
             PodVolume.Source :=
               VolumeSource.PersistentVolumeClaim pvcName false |}])%list in
    let mount := {| VolumeMount.Name := volName;
                    VolumeMount.MountPath := mountPath;
                    VolumeMount.ReadOnly := false;
                    VolumeMount.SubPath := "" |} in
    match Pod.Containers pod with
    | [] => Panics
    | c0 :: cs =>
      addNamedVolumes in_ tainr
        {| Pod.Volumes := volumes;
           Pod.Containers :=
             {| PodContainer.Name := PodContainer.Name c0;
                PodContainer.Image := PodContainer.Image c0;
                PodContainer.VolumeMounts :=
                  (PodContainer.VolumeMounts c0 ++ [mount])%list |} :: cs |}
        rest
    end
  end.
End Bulk.
End backend.

(** ** The entity store and the HTTP layer, as the handlers see them *)

Module model.
(** The entity store [cr.DB], over a store state [D]. Lookups read the
    state; saving and deleting change it and may fail. [SaveVolume] takes
    the volume by pointer and may fill in fields of it, so it gives the
    volume back. *)
Class Database (D : Type) := {
  GetNetworkByNameOrID : string -> D -> result Network.t;
  GetNetworks : D -> result (list Network.t);
  DeleteNetwork : Network.t -> D -> option error * D;
  GetContainerByNameOrID : string -> D -> result Container.t;
  GetContainers : D -> result (list Container.t);
  SaveContainer : Container.t -> D -> option error * D;
  GetVolumeByName : string -> D -> result Volume.t;
  GetVolumeByNameOrID : string -> D -> result Volume.t;
  GetVolumes : D -> result (list Volume.t);
  SaveVolume : Volume.t -> D -> Volume.t * option error * D;
  DeleteVolume : Volume.t -> D -> option error * D
}.

(** The store's operations that only [NetworkCreate] uses. [SaveNetwork]
    takes the network by pointer and gives it back, as [SaveVolume] does. *)
Class NetworkCreation (D : Type) := {
  GetNetworkByName : string -> D -> result Network.t;
  SaveNetwork : Network.t -> D -> Network.t * option error * D
}.
End model.

Module http.
Definition StatusOK : Z := 200.
Definition StatusCreated : Z := 201.
Definition StatusNoContent : Z := 204.
Definition StatusForbidden : Z := 403.
Definition StatusNotFound : Z := 404.
Definition StatusConflict : Z := 409.
Definition StatusInternalServerError : Z := 500.
End http.

(** The values the handlers hand to [c.JSON]; a [gin.H] literal is [JObject]
    with its fields in the order of the source. *)
#[warnings="-register-all"]
Inductive JSON :=
| JNull
| JBool (b : bool)
| JInt (z : Z)
| JString (s : string)
| JStrings (l : list string)
| JStringMap (m : gmap string string)
| JArray (l : list JSON)
| JObject (fields : list (string * JSON)).

(** What a handler writes to the client. *)
Inductive Response :=
| (** [c.JSON(status, body)] *)
  JSONResponse (status : Z) (body : JSON)
| (** [c.Writer.WriteHeader(status)] *)
  HeaderResponse (status : Z)
| (** [httputil.Error(c, status, err)] *)
  ErrorResponse (status : Z) (err : error).

Definition statusOf (r : Response) : Z :=
  match r with
  | JSONResponse s _ => s
  | HeaderResponse s => s
  | ErrorResponse s _ => s
  end.

(** What a request can change: the entity store, the cluster behind the
    backend, and the log. *)
Record World (D K : Type) := {
  db : D;
  cluster : K;
  klog : list LogEntry
}.
Arguments db {D K} w.
Arguments cluster {D K} w.
Arguments klog {D K} w.
Arguments Build_World {D K} db cluster klog.

Definition logf {D K} (e : LogEntry) (w : World D K) : World D K :=
  Build_World (db w) (cluster w) (klog w ++ [e]).

Definition setDB {D K} (d : D) (w : World D K) : World D K :=
  Build_World d (cluster w) (klog w).

(** [cr.Backend.CreateVolume(vol)] on the world *)
Definition Backend_CreateVolume `{GoLib} `{Repo} {D K} `{ClaimsClient K}
    (in_ : backend.instance) (vol : Volume.t) (w : World D K)
  : outcome (Volume.t * option error * World D K) :=
  match backend.CreateVolume in_ vol (cluster w) (klog w) with
  | Panics => Panics
  | Returns (vol', err, k', log') => Returns (vol', err, Build_World (db w) k' log')
  end.

(** [cr.Backend.DeleteVolume(vol)] on the world *)
Definition Backend_DeleteVolume `{Repo} {D K} `{ClaimsClient K}
    (in_ : backend.instance) (vol : Volume.t) (w : World D K)
  : option error * World D K :=
  let '(err, k', log') := backend.DeleteVolume in_ vol (cluster w) (klog w) in
  (err, Build_World (db w) k' log').

(** Package [filter] is not among the sources: [Filter] is a filter set,
    [filter_New] is [filter.New] on the [filters] query parameter (it gives a
    filter set back also when it reports an error), and the two [Match]
    functions are [filtr.Match] on a volume and on a network. *)
Class Filters := {
  Filter : Type;
  filter_New : string -> Filter * option error;
  filter_MatchVolume : Filter -> Volume.t -> bool;
  filter_MatchNetwork : Filter -> Network.t -> bool
}.

(** [klog.V(5).Infof("unsupported filter: %s", err)] when [filter.New] failed *)
Definition logUnsupportedFilter `{Verbosity} {D K} (err : option error)
    (w : World D K) : World D K :=
  match err with
  | Some e =>
    if klog_V 5 then logf (Infof ("unsupported filter: " ++ Error e)) w else w
  | None => w
  end.

(** ** Package [routes/docker] *)

Module docker.
(** [VolumeCreateRequest] represents the json structure for volume creation. *)
Record VolumeCreateRequest := {
  Name : string;
  Driver : string;
  DriverOpts : gmap string string;
  Labels : gmap string string
}.

Section Handlers.
Context `{GoLib} `{Repo} {D K : Type}
        `{model.Database D} `{ClaimsClient K}.
Variable cr_Backend : backend.instance.

(** [volumeToJSON] returns a gin.H containing the details of the given volume. *)
Definition volumeToJSON (vol : Volume.t) : JSON :=
  let driver := if bool_decide (Volume.Driver vol = "") then "local"
                else Volume.Driver vol in
  let labels := Volume.Labels vol in
  let mountpoint :=
    if bool_decide (Volume.Mountpoint vol = "")
    then "/var/lib/kubedock/volumes/" ++ Volume.Name vol
    else Volume.Mountpoint vol in
  JObject [
    ("Name", JString (Volume.Name vol));
    ("Driver", JString driver);
    ("Mountpoint", JString mountpoint);
    ("Labels", JStringMap labels);
    ("Scope", JString "local");
    ("CreatedAt", JString (time_Format (Volume.Created vol)
                             "2006-01-02T15:04:05Z07:00"));
    ("Options", JStringMap ∅);
    ("UsageData", JNull)
  ].

(** [VolumeCreate] - create a volume. [body] is what decoding the request
    body gave. *)
Definition VolumeCreate (body : result VolumeCreateRequest) (w : World D K)
  : outcome (Response * World D K) :=
  match body with
  | Err err => Returns (ErrorResponse http.StatusInternalServerError err, w)
  | Ok in_ =>
    let driver := if bool_decide (Driver in_ = "") then "local"
                  else Driver in_ in
    (* Check if volume already exists *)
    match model.GetVolumeByName (Name in_) (db w) with
    | Ok existing =>
      Returns (JSONResponse http.StatusCreated (volumeToJSON existing), w)
    | Err _ =>
      let vol := {| Volume.ID := ""; Volume.ShortID := "";
                    Volume.Name := Name in_; Volume.Driver := driver;
                    Volume.Labels := Labels in_; Volume.Mountpoint := "";
                    Volume.Created := 0%Z |} in
      match Backend_CreateVolume cr_Backend vol w with
      | Panics => Panics
      | Returns (_, Some err, w1) =>
        Returns (ErrorResponse http.StatusInternalServerError err, w1)
      | Returns (vol1, None, w1) =>
        match model.SaveVolume vol1 (db w1) with
        | (_, Some err, d2) =>
          Returns (ErrorResponse http.StatusInternalServerError err,
                   setDB d2 w1)
        | (vol2, None, d2) =>
          Returns (JSONResponse http.StatusCreated (volumeToJSON vol2),
                   setDB d2 w1)
        end
      end
    end
  end.

(** [VolumeDelete] - remove a volume. *)
Definition VolumeDelete (id : string) (w : World D K) : Response * World D K :=
  match model.GetVolumeByNameOrID id (db w) with
  | Err err => (ErrorResponse http.StatusNotFound err, w)
  | Ok vol =>
    let '(berr, w1) := Backend_DeleteVolume cr_Backend vol w in
    let w2 := match berr with
              | Some err =>
                logf (Warningf ("error deleting k8s PVC for volume: "
                                  ++ Error err)) w1
              | None => w1
              end in
    match model.DeleteVolume vol (db w2) with
    | (Some err, d3) => (ErrorResponse http.StatusNotFound err, setDB d3 w2)
    | (None, d3) => (HeaderResponse http.StatusNoContent, setDB d3 w2)
    end
  end.

(** The loop of [VolumesPrune] over the volumes still to visit. *)
Fixpoint pruneVolumes (vols : list Volume.t) (names : list string)
    (w : World D K) : list string * World D K :=
  match vols with
  | [] => (names, w)
  | vol :: rest =>
    let '(berr, w1) := Backend_DeleteVolume cr_Backend vol w in
    let w2 := match berr with
              | Some err =>
                logf (Warningf ("error deleting k8s PVC for volume "
                                  ++ Volume.Name vol ++ ": " ++ Error err)) w1
              | None => w1
              end in
    match model.DeleteVolume vol (db w2) with
    | (Some err, d3) =>
      (* continue *)
      pruneVolumes rest names
        (logf (Warningf ("error deleting volume " ++ Volume.Name vol
                           ++ " from db: " ++ Error err)) (setDB d3 w2))
    | (None, d3) =>
      pruneVolumes rest (names ++ [Volume.Name vol]) (setDB d3 w2)
    end
  end.

(** [VolumesPrune] - Delete unused volumes. *)
Definition VolumesPrune (w : World D K) : Response * World D K :=
  match model.GetVolumes (db w) with
  | Err err => (ErrorResponse http.StatusInternalServerError err, w)
  | Ok vols =>
    let '(names, w') := pruneVolumes vols [] w in
    (JSONResponse http.StatusOK
       (JObject [("VolumesDeleted", JStrings names);
                 ("SpaceReclaimed", JInt 0)]), w')
  end.
End Handlers.

Section Reading.
Context `{GoLib} `{Verbosity} `{Filters} {D K : Type} `{model.Database D}.

(** The loop of [VolumeList] over the volumes still to visit. *)
Fixpoint listVolumes (filtr : Filter) (vols : list Volume.t) (res : list JSON)
  : list JSON :=
  match vols with
  | [] => res
  | vol :: rest =>
    listVolumes filtr rest
      (if filter_MatchVolume filtr vol then (res ++ [volumeToJSON vol])%list
       else res)
  end.

(** [VolumeList] - list volumes. [filters] is the query parameter. *)
Definition VolumeList (filters : string) (w : World D K) : Response * World D K :=
  match model.GetVolumes (db w) with
  | Err err => (ErrorResponse http.StatusInternalServerError err, w)
  | Ok vols =>
    let '(filtr, err) := filter_New filters in
    let w1 := logUnsupportedFilter err w in
    let res := listVolumes filtr vols [] in
    (JSONResponse http.StatusOK
       (JObject [("Volumes", JArray res); ("Warnings", JStrings [])]), w1)
  end.

(** [VolumeInfo] - inspect a volume. *)
Definition VolumeInfo (id : string) (w : World D K) : Response * World D K :=
  match model.GetVolumeByNameOrID id (db w) with
  | Err err => (ErrorResponse http.StatusNotFound err, w)
  | Ok vol => (JSONResponse http.StatusOK (volumeToJSON vol), w)
  end.
End Reading.
End docker.

(** ** Package [routes/libpod] *)

Module libpod.
(** [VolumeCreateRequest] represents the json structure for libpod volume
    creation. *)
Record VolumeCreateRequest := {
  Name : string;
  Driver : string;
  Options : gmap string string;
  Labels : gmap string string
}.

(** [NetworkConnectRequest] represents the json structure for libpod network
    connect. *)
Record NetworkConnectRequest := {
  Container : string;
  Aliases : list string
}.

(** [NetworkDisconnectRequest] represents the json structure for libpod
    network disconnect. *)
Record NetworkDisconnectRequest := {
  DisconnectContainer : string
}.

Section Handlers.
Context `{GoLib} `{Repo} {D K : Type}
        `{model.Database D} `{ClaimsClient K}.
Variable cr_Backend : backend.instance.

(** [volumeToLibpodJSON] returns a gin.H containing volume details in
    libpod format. *)
Definition volumeToLibpodJSON (vol : Volume.t) : JSON :=
  let driver := if bool_decide (Volume.Driver vol = "") then "local"
                else Volume.Driver vol in
  let labels := Volume.Labels vol in
  let mountpoint :=
    if bool_decide (Volume.Mountpoint vol = "")
    then "/var/lib/kubedock/volumes/" ++ Volume.Name vol
    else Volume.Mountpoint vol in
  JObject [
    ("Name", JString (Volume.Name vol));
    ("Driver", JString driver);
    ("Mountpoint", JString mountpoint);
    ("Labels", JStringMap labels);
    ("Scope", JString "local");
    ("CreatedAt", JString (time_Format (Volume.Created vol)
                             "2006-01-02T15:04:05Z07:00"));
    ("Options", JStringMap ∅)
  ].

(** [VolumeCreate] - create a volume. *)
Definition VolumeCreate (body : result VolumeCreateRequest) (w : World D K)
  : outcome (Response * World D K) :=
  match body with
  | Err err => Returns (ErrorResponse http.StatusInternalServerError err, w)
  | Ok in_ =>
    let driver := if bool_decide (Driver in_ = "") then "local"
                  else Driver in_ in
    (* Check if volume already exists *)
    match model.GetVolumeByName (Name in_) (db w) with
    | Ok existing =>
      Returns (JSONResponse http.StatusCreated (volumeToLibpodJSON existing), w)
    | Err _ =>
      let vol := {| Volume.ID := ""; Volume.ShortID := "";
                    Volume.Name := Name in_; Volume.Driver := driver;
                    Volume.Labels := Labels in_; Volume.Mountpoint := "";
                    Volume.Created := 0%Z |} in
      match Backend_CreateVolume cr_Backend vol w with
      | Panics => Panics
      | Returns (_, Some err, w1) =>
        Returns (ErrorResponse http.StatusInternalServerError err, w1)
      | Returns (vol1, None, w1) =>
        match model.SaveVolume vol1 (db w1) with
        | (_, Some err, d2) =>
          Returns (ErrorResponse http.StatusInternalServerError err,
                   setDB d2 w1)
        | (vol2, None, d2) =>
          Returns (JSONResponse http.StatusCreated (volumeToLibpodJSON vol2),
                   setDB d2 w1)
        end
      end
    end
  end.

(** [VolumeDelete] - remove a volume. *)
Definition VolumeDelete (name : string) (w : World D K) : Response * World D K :=
  match model.GetVolumeByNameOrID name (db w) with
  | Err err => (ErrorResponse http.StatusNotFound err, w)
  | Ok vol =>
    let '(berr, w1) := Backend_DeleteVolume cr_Backend vol w in
    let w2 := match berr with
              | Some err =>
                logf (Warningf ("error deleting k8s PVC for volume: "
                                  ++ Error err)) w1
              | None => w1
              end in
    match model.DeleteVolume vol (db w2) with
    | (Some err, d3) => (ErrorResponse http.StatusNotFound err, setDB d3 w2)
    | (None, d3) => (HeaderResponse http.StatusNoContent, setDB d3 w2)
    end
  end.

(** The loop of [VolumePrune] over the volumes still to visit. *)
Fixpoint pruneVolumes (vols : list Volume.t) (pruned : list JSON)
    (w : World D K) : list JSON * World D K :=
  match vols with
  | [] => (pruned, w)
  | vol :: rest =>
    let '(berr, w1) := Backend_DeleteVolume cr_Backend vol w in
    let w2 := match berr with
              | Some err =>
                logf (Warningf ("error deleting k8s PVC for volume "
                                  ++ Volume.Name vol ++ ": " ++ Error err)) w1
              | None => w1
              end in
    match model.DeleteVolume vol (db w2) with
    | (Some err, d3) =>
      (* continue *)
      pruneVolumes rest pruned
        (logf (Warningf ("error deleting volume " ++ Volume.Name vol
                           ++ " from db: " ++ Error err)) (setDB d3 w2))
    | (None, d3) =>
      pruneVolumes rest
        (pruned ++ [JObject [("Id", JString (Volume.ID vol));
                             ("Size", JInt 0)]])
        (setDB d3 w2)
    end
  end.


(** [networkToLibpodJSON] returns a gin.H containing network details in
    libpod format. *)
Definition networkToLibpodJSON (netw : Network.t) : JSON :=
  let labels := Network.Labels netw in
  JObject [
    ("name", JString (Network.Name netw));
    ("id", JString (Network.ID netw));
    ("driver", JString "bridge");
    ("network_interface", JString "kubedock0");
    ("created", JString (time_Format (Network.Created netw)
                           "2006-01-02T15:04:05Z"));
    ("subnets", JArray [JObject [("subnet", JString "10.88.0.0/16");
                                 ("gateway", JString "10.88.0.1")]]);
    ("ipv6_enabled", JBool false);
    ("internal", JBool false);
    ("dns_enabled", JBool true);
    ("labels", JStringMap labels)
  ].

(** The loop of [getContainersInNetwork] over the containers. *)
Fixpoint containersInNetwork (tainrs : list Container.t) (netw : Network.t)
    (res : gmap string JSON) : gmap string JSON :=
  match tainrs with
  | [] => res
  | tainr :: rest =>
    containersInNetwork rest netw
      (if bool_decide (Network.ID netw ∈ Container.Networks tainr)
       then <[Container.ID tainr :=
                JObject [("Name", JString (Container.Name tainr))]]> res
       else res)
  end.

(** [getContainersInNetwork] returns all containers connected to the given
    network. *)
Definition getContainersInNetwork (netw : Network.t) (w : World D K)
  : gmap string JSON * World D K :=
  match model.GetContainers (db w) with
  | Ok tainrs => (containersInNetwork tainrs netw ∅, w)
  | Err err =>
    (∅, logf (Errorf ("error retrieving containers: " ++ Error err)) w)
  end.

(** [NetworkDelete] - remove a network. *)
Definition NetworkDelete (id : string) (w : World D K) : Response * World D K :=
  match model.GetNetworkByNameOrID id (db w) with
  | Err err => (ErrorResponse http.StatusNotFound err, w)
  | Ok netw =>
    if IsPredefined netw then
      (ErrorResponse http.StatusForbidden
         (fmt.Errorf (Network.Name netw
            ++ " is a pre-defined network and cannot be removed")), w)
    else
      let '(members, w1) := getContainersInNetwork netw w in
      if bool_decide (size members ≠ 0) then
        (ErrorResponse http.StatusConflict
           (fmt.Errorf "cannot delete network, containers attached"), w1)
      else
        match model.DeleteNetwork netw (db w1) with
        | (Some err, d2) =>
          (ErrorResponse http.StatusNotFound err, setDB d2 w1)
        | (None, d2) =>
          (JSONResponse http.StatusOK (JArray [networkToLibpodJSON netw]),
           setDB d2 w1)
        end
  end.

(** The first loop of [NetworkConnect]: the aliases the container has. *)
Definition aliasesDone (aliases : list string) : gmap string string :=
  foldl (fun done a => <[a := a]> done) ∅ aliases.

(** One round of the second loop of [NetworkConnect], on the container's
    aliases and the aliases seen so far. *)
Definition addAlias (st : list string * gmap string string) (a : string)
  : list string * gmap string string :=
  let alias := strings.ToLower a in
  match st.2 !! alias with
  | None => ((st.1 ++ [alias])%list, <[alias := alias]> st.2)
  | Some _ => st
  end.

(** Both loops: the container's aliases after connecting with [aliases]. *)
Definition mergeAliases (tainr : Container.t) (aliases : list string)
  : list string :=
  (foldl addAlias
     (Container.NetworkAliases tainr,
      aliasesDone (Container.NetworkAliases tainr)) aliases).1.

(** [NetworkConnect] - connect a container to a network. *)
Definition NetworkConnect (id : string) (body : result NetworkConnectRequest)
    (w : World D K) : Response * World D K :=
  match body with
  | Err err => (ErrorResponse http.StatusInternalServerError err, w)
  | Ok in_ =>
    match model.GetNetworkByNameOrID id (db w) with
    | Err err => (ErrorResponse http.StatusNotFound err, w)
    | Ok netw =>
      match model.GetContainerByNameOrID (Container in_) (db w) with
      | Err err => (ErrorResponse http.StatusNotFound err, w)
      | Ok tainr =>
        let tainr1 := Container.ConnectNetwork tainr (Network.ID netw) in
        let tainr2 := Container.setNetworkAliases tainr1
                        (mergeAliases tainr1 (Aliases in_)) in
        match model.SaveContainer tainr2 (db w) with
        | (Some err, d1) =>
          (ErrorResponse http.StatusInternalServerError err, setDB d1 w)
        | (None, d1) =>
          (JSONResponse http.StatusOK (JObject []), setDB d1 w)
        end
      end
    end
  end.

(** [NetworkDisconnect] - disconnect a container from a network. *)
Definition NetworkDisconnect (id : string)
    (body : result NetworkDisconnectRequest) (w : World D K)
  : Response * World D K :=
  match body with
  | Err err => (ErrorResponse http.StatusInternalServerError err, w)
  | Ok in_ =>
    match model.GetNetworkByNameOrID id (db w) with
    | Err err => (ErrorResponse http.StatusNotFound err, w)
    | Ok netw =>
      match model.GetContainerByNameOrID (DisconnectContainer in_) (db w) with
      | Err err => (ErrorResponse http.StatusNotFound err, w)
      | Ok tainr =>
        if IsPredefined netw then
          (ErrorResponse http.StatusInternalServerError
             (fmt.Errorf "cannot disconnect from predefined network"), w)
        else
          match Container.DisconnectNetwork tainr (Network.ID netw) with
          | (_, Some err) => (ErrorResponse http.StatusNotFound err, w)
          | (tainr1, None) =>
            match model.SaveContainer tainr1 (db w) with
            | (Some err, d1) =>
              (ErrorResponse http.StatusInternalServerError err, setDB d1 w)
            | (None, d1) => (HeaderResponse http.StatusOK, setDB d1 w)
            end
          end
      end
    end
  end.

(** The loop of [NetworkPrune] over the networks still to visit; [Err]
    when a deletion failed, where the handler answers with that error
    and returns. *)
Fixpoint pruneNetworks (netws : list Network.t) (pruned : list JSON)
    (w : World D K) : result (list JSON) * World D K :=
  match netws with
  | [] => (Ok pruned, w)
  | netw :: rest =>
    if IsPredefined netw then pruneNetworks rest pruned w
    else
      let '(members, w1) := getContainersInNetwork netw w in
      if bool_decide (size members ≠ 0) then pruneNetworks rest pruned w1
      else
        match model.DeleteNetwork netw (db w1) with
        | (Some err, d2) => (Err err, setDB d2 w1)
        | (None, d2) =>
          pruneNetworks rest (pruned ++ [networkToLibpodJSON netw])%list
            (setDB d2 w1)
        end
  end.

(** [NetworkPrune] - prune unused networks. *)
Definition NetworkPrune (w : World D K) : Response * World D K :=
  match model.GetNetworks (db w) with
  | Err err => (ErrorResponse http.StatusInternalServerError err, w)
  | Ok netws =>
    match pruneNetworks netws [] w with
    | (Err err, w') => (ErrorResponse http.StatusNotFound err, w')
    | (Ok pruned, w') => (JSONResponse http.StatusOK (JArray pruned), w')
    end
  end.
End Handlers.

(** [NetworkCreateRequest] represents the json structure for libpod network
    creation. *)
Module NetworkCreateRequest.
Record t := {
  Name : string;
  Driver : string;
  Labels : gmap string string;
  Options : gmap string string
}.
End NetworkCreateRequest.

Section Reading.
Context `{GoLib} `{Repo} `{Verbosity} `{Filters} {D K : Type}
        `{model.Database D} `{model.NetworkCreation D}.

(** The loop of [VolumeList] over the volumes still to visit. *)
Fixpoint listVolumes (filtr : Filter) (vols : list Volume.t) (res : list JSON)
  : list JSON :=
  match vols with
  | [] => res
  | vol :: rest =>
    listVolumes filtr rest
      (if filter_MatchVolume filtr vol
       then (res ++ [volumeToLibpodJSON vol])%list
       else res)
  end.

(** [VolumeList] - list volumes. *)
Definition VolumeList (filters : string) (w : World D K) : Response * World D K :=
  match model.GetVolumes (db w) with
  | Err err => (ErrorResponse http.StatusInternalServerError err, w)
  | Ok vols =>
    let '(filtr, err) := filter_New filters in
    let w1 := logUnsupportedFilter err w in
    let res := listVolumes filtr vols [] in
    (JSONResponse http.StatusOK (JArray res), w1)
  end.

(** [VolumeInfo] - inspect a volume. *)
Definition VolumeInfo (name : string) (w : World D K) : Response * World D K :=
  match model.GetVolumeByNameOrID name (db w) with
  | Err err => (ErrorResponse http.StatusNotFound err, w)
  | Ok vol => (JSONResponse http.StatusOK (volumeToLibpodJSON vol), w)
  end.

(** [VolumeExists] - check if volume exists. *)
Definition VolumeExists (name : string) (w : World D K) : Response * World D K :=
  match model.GetVolumeByNameOrID name (db w) with
  | Err err => (ErrorResponse http.StatusNotFound err, w)
  | Ok _ => (HeaderResponse http.StatusNoContent, w)
  end.

(** The loop of [NetworkList] over the networks still to visit. *)
Fixpoint listNetworks (filtr : Filter) (netws : list Network.t)
    (res : list JSON) : list JSON :=
  match netws with
  | [] => res
  | netw :: rest =>
    listNetworks filtr rest
      (if filter_MatchNetwork filtr netw
       then (res ++ [networkToLibpodJSON netw])%list
       else res)
  end.

(** [NetworkList] - list networks. *)
Definition NetworkList (filters : string) (w : World D K) : Response * World D K :=
  match model.GetNetworks (db w) with
  | Err err => (ErrorResponse http.StatusInternalServerError err, w)
  | Ok netws =>
    let '(filtr, err) := filter_New filters in
    let w1 := logUnsupportedFilter err w in
    let res := listNetworks filtr netws [] in
    (JSONResponse http.StatusOK (JArray res), w1)
  end.

(** [NetworkInfo] - inspect a network. *)
Definition NetworkInfo (id : string) (w : World D K) : Response * World D K :=
  match model.GetNetworkByNameOrID id (db w) with
  | Err err => (ErrorResponse http.StatusNotFound err, w)
  | Ok netw => (JSONResponse http.StatusOK (networkToLibpodJSON netw), w)
  end.

(** [NetworkExists] - check if a network exists. *)
Definition NetworkExists (id : string) (w : World D K) : Response * World D K :=
  match model.GetNetworkByNameOrID id (db w) with
  | Err err => (ErrorResponse http.StatusNotFound err, w)
  | Ok _ => (HeaderResponse http.StatusNoContent, w)
  end.

(** [NetworkCreate] - create a network. *)
Definition NetworkCreate (body : result NetworkCreateRequest.t) (w : World D K)
  : Response * World D K :=
  match body with
  | Err err => (ErrorResponse http.StatusInternalServerError err, w)
  | Ok in_ =>
    (* Check if network already exists *)
    match model.GetNetworkByName (NetworkCreateRequest.Name in_) (db w) with
    | Ok existing =>
      (JSONResponse http.StatusOK (networkToLibpodJSON existing), w)
    | Err _ =>
      let netw := {| Network.ID := "";
                     Network.Name := NetworkCreateRequest.Name in_;
                     Network.Labels := NetworkCreateRequest.Labels in_;
                     Network.Created := 0%Z |} in
      match model.SaveNetwork netw (db w) with
      | (_, Some err, d1) =>
        (ErrorResponse http.StatusInternalServerError err, setDB d1 w)
      | (netw1, None, d1) =>
        (JSONResponse http.StatusOK (networkToLibpodJSON netw1), setDB d1 w)
      end
    end
  end.
End Reading.
End libpod.

(** ** The entity store *)

(** What the entity store draws on when it saves an entity for the first
    time: the identifier it generates, the short form of an identifier, and
    the clock. *)
Class Stamp := {
  newID : nat -> string;
  shortID : string -> string;
  now : nat -> Time
}.

Module store.
(** Modelled from the spec: the entity store (package [model]) is not among
    the sources. It is the in-process record of containers, networks and
    volumes; [generated] counts the identifiers it has handed out. *)
Record t := {
  containers : list Container.t;
  networks : list Network.t;
  volumes : list Volume.t;
  generated : nat
}.

Definition errNotFound : error := errorString "not found".

Section Entities.
Context {A : Type} (getID getName : A -> string).

(** Modelled from the spec: [GetByName] is an exact match on the name. *)
Definition byName (name : string) (l : list A) : result A :=
  match List.find (fun e => bool_decide (getName e = name)) l with
  | Some e => Ok e
  | None => Err errNotFound
  end.

(** Modelled from the spec: [GetByNameOrID] first attempts an exact ID
    match, then an exact name match. *)
Definition byNameOrID (id : string) (l : list A) : result A :=
  match List.find (fun e => bool_decide (getID e = id)) l with
  | Some e => Ok e
  | None => byName id l
  end.

(** Modelled from the spec: [Save] stores the entity under its ID, in
    place of the entity that had that ID, if any. *)
Definition upsert (e : A) (l : list A) : list A :=
  if List.existsb (fun x => bool_decide (getID x = getID e)) l
  then (fun x => if bool_decide (getID x = getID e) then e else x) <$> l
  else (l ++ [e])%list.

(** Modelled from the spec: [Delete] removes the entity with that ID and
    reports when there is none. *)
Definition remove (e : A) (l : list A) : option error * list A :=
  if List.existsb (fun x => bool_decide (getID x = getID e)) l
  then (None, filter (fun x => getID x ≠ getID e) l)
  else (Some errNotFound, l).
End Entities.

Definition setContainers (s : t) (l : list Container.t) : t :=
  {| containers := l; networks := networks s; volumes := volumes s;
     generated := generated s |}.

Definition setNetworks (s : t) (l : list Network.t) : t :=
  {| containers := containers s; networks := l; volumes := volumes s;
     generated := generated s |}.

Definition setVolumes (s : t) (l : list Volume.t) (n : nat) : t :=
  {| containers := containers s; networks := networks s; volumes := l;
     generated := n |}.

Section Store.
Context `{Stamp}.

(** Modelled from the spec: a volume saved without an ID gets a generated
    ID, the short ID derived from it and its creation time, once. *)
Definition stampVolume (s : t) (v : Volume.t) : Volume.t * nat :=
  if bool_decide (Volume.ID v = "") then
    ({| Volume.ID := newID (generated s);
        Volume.ShortID := shortID (newID (generated s));
        Volume.Name := Volume.Name v; Volume.Driver := Volume.Driver v;
        Volume.Labels := Volume.Labels v;
        Volume.Mountpoint := Volume.Mountpoint v;
        Volume.Created := now (generated s) |}, S (generated s))
  else (v, generated s).

Definition SaveVolume (v : Volume.t) (s : t) : Volume.t * option error * t :=
  let '(v', n) := stampVolume s v in
  (v', None, setVolumes s (upsert Volume.ID v' (volumes s)) n).

Definition DeleteVolume (v : Volume.t) (s : t) : option error * t :=
  let '(err, l) := remove Volume.ID v (volumes s) in
  (err, setVolumes s l (generated s)).

Definition DeleteNetwork (n : Network.t) (s : t) : option error * t :=
  let '(err, l) := remove Network.ID n (networks s) in
  (err, setNetworks s l).

Definition SaveContainer (c : Container.t) (s : t) : option error * t :=
  (None, setContainers s (upsert Container.ID c (containers s))).

#[global] Instance database : model.Database t := {|
  model.GetNetworkByNameOrID id s :=
    byNameOrID Network.ID Network.Name id (networks s);
  model.GetNetworks s := Ok (networks s);
  model.DeleteNetwork := DeleteNetwork;
  model.GetContainerByNameOrID id s :=
    byNameOrID Container.ID Container.Name id (containers s);
  model.GetContainers s := Ok (containers s);
  model.SaveContainer := SaveContainer;
  model.GetVolumeByName name s := byName Volume.Name name (volumes s);
  model.GetVolumeByNameOrID id s :=
    byNameOrID Volume.ID Volume.Name id (volumes s);
  model.GetVolumes s := Ok (volumes s);
  model.SaveVolume := SaveVolume;
  model.DeleteVolume := DeleteVolume
|}.
End Store.

Section Networks.
Context `{Stamp}.

(** Modelled from the spec: a network saved without an ID gets a generated
    ID and its creation time, once. *)
Definition stampNetwork (s : t) (n : Network.t) : Network.t * nat :=
  if bool_decide (Network.ID n = "") then
    ({| Network.ID := newID (generated s);
        Network.Name := Network.Name n; Network.Labels := Network.Labels n;
        Network.Created := now (generated s) |}, S (generated s))
  else (n, generated s).

Definition SaveNetwork (n : Network.t) (s : t) : Network.t * option error * t :=
  let '(n', g) := stampNetwork s n in
  (n', None,
   {| containers := containers s;
      networks := upsert Network.ID n' (networks s);
      volumes := volumes s; generated := g |}).

#[global] Instance networkCreation : model.NetworkCreation t := {|
  model.GetNetworkByName name s := byName Network.Name name (networks s);
  model.SaveNetwork := SaveNetwork
|}.
End Networks.
End store.

(** ** A reference environment

    Instances of the interfaces above on which the model runs: a matcher for
    a fragment of RE2's syntax, a cluster that keeps claims by namespace and
    name, and the built-in networks of a container engine. *)

Module re2.
(** Regular expressions over bytes. [reDot] is [.], which leaves out the
    newline; [reAnyByte] is any byte at all. *)
Inductive re :=
| reNone
| reEps
| reByte (c : ascii)
| reDot
| reAnyByte
| reCat (r s : re)
| reAlt (r s : re)
| reStar (r : re).

Fixpoint nullable (r : re) : bool :=
  match r with
  | reNone | reByte _ | reDot | reAnyByte => false
  | reEps | reStar _ => true
  | reCat r s => nullable r && nullable s
  | reAlt r s => nullable r || nullable s
  end.

(** The derivative of [r] by the byte [c]. *)
Fixpoint deriv (c : ascii) (r : re) : re :=
  match r with
  | reNone | reEps => reNone
  | reByte c' => if bool_decide (c = c') then reEps else reNone
  | reDot => if bool_decide (c = "010"%char) then reNone else reEps
  | reAnyByte => reEps
  | reCat r s =>
    if nullable r then reAlt (reCat (deriv c r) s) (deriv c s)
    else reCat (deriv c r) s
  | reAlt r s => reAlt (deriv c r) (deriv c s)
  | reStar r => reCat (deriv c r) (reStar r)
  end.

(** [r] matches the whole of [s]. *)
Fixpoint matches (r : re) (s : string) : bool :=
  match s with
  | EmptyString => nullable r
  | String c s' => matches (deriv c r) s'
  end.

(** What the parser holds for one nesting level: the alternatives closed
    so far, the concatenation being read, the piece read last, and how many
    repetition marks that piece carries (a second mark can only be the [?]
    of a non-greedy repetition). *)
Record frame := {
  alts : option re;
  cat : re;
  last : option re;
  marks : nat
}.

Definition emptyFrame : frame :=
  {| alts := None; cat := reEps; last := None; marks := 0 |}.

(** The concatenation read so far, with the last piece in it. *)
Definition flush (f : frame) : re :=
  match last f with
  | Some r => reCat (cat f) r
  | None => cat f
  end.

(** The expression a nesting level stands for. *)
Definition close (f : frame) : re :=
  match alts f with
  | Some a => reAlt a (flush f)
  | None => flush f
  end.

Definition parseError (msg : string) : error :=
  errorString ("error parsing regexp: " ++ msg).

Definition repeat (c : ascii) (r : re) : re :=
  if bool_decide (c = "*"%char) then reStar r
  else if bool_decide (c = "+"%char) then reCat r (reStar r)
  else reAlt r reEps.

(** The parser, byte by byte, with the enclosing levels on [stack]. The
    bytes [\ [ { ^ $] start syntax outside the fragment and are refused. *)
Fixpoint parse (s : string) (f : frame) (stack : list frame) : result re :=
  match s with
  | EmptyString =>
    match stack with
    | [] => Ok (close f)
    | _ => Err (parseError "missing closing )")
    end
  | String c s' =>
    if bool_decide (c = "("%char) then parse s' emptyFrame (f :: stack)
    else if bool_decide (c = ")"%char) then
      match stack with
      | [] => Err (parseError "unexpected )")
      | g :: stack' =>
        parse s' {| alts := alts g; cat := flush g; last := Some (close f);
                    marks := 0 |} stack'
      end
    else if bool_decide (c = "|"%char) then
      parse s' {| alts := Some (close f); cat := reEps; last := None;
                  marks := 0 |} stack
    else if bool_decide (c = "*"%char) || bool_decide (c = "+"%char)
            || bool_decide (c = "?"%char) then
      match last f, marks f with
      | None, _ =>
        Err (parseError "missing argument to repetition operator")
      | Some r, 0 =>
        parse s' {| alts := alts f; cat := cat f; last := Some (repeat c r);
                    marks := 1 |} stack
      | Some r, 1 =>
        if bool_decide (c = "?"%char)
        then parse s' {| alts := alts f; cat := cat f; last := Some r;
                         marks := 2 |} stack
        else Err (parseError "invalid nested repetition operator")
      | Some _, _ => Err (parseError "invalid nested repetition operator")
      end
    else if bool_decide (c = "\"%char) || bool_decide (c = "["%char)
            || bool_decide (c = "{"%char) || bool_decide (c = "^"%char)
            || bool_decide (c = "$"%char) then
      Err (parseError "syntax outside the fragment")
    else
      parse s' {| alts := alts f; cat := flush f;
                  last := Some (if bool_decide (c = "."%char) then reDot
                                else reByte c);
                  marks := 0 |} stack
  end.

(** [regexp.MatchString] on the fragment: the pattern matches when it
    matches some part of [s]. *)
Definition MatchString (pattern s : string) : bool * option error :=
  match parse pattern emptyFrame [] with
  | Err e => (false, Some e)
  | Ok r =>
    (matches (reCat (reStar reAnyByte) (reCat r (reStar reAnyByte))) s, None)
  end.
End re2.

Module reference.
#[export] Instance golib : GoLib := {|
  regexp_MatchString := re2.MatchString;
  unicode_ToLower s := s;
  time_Format t layout := layout;
  resource_ParseQuantity s :=
    if bool_decide (s = "") then None else Some {| quantity := s |}
|}.

#[export] Instance repo : Repo := {|
  IsPredefined n :=
    bool_decide (Network.Name n = "bridge")
    || bool_decide (Network.Name n = "null")
    || bool_decide (Network.Name n = "host");
  toKubernetesName := strings.mapBytes strings.lowerByte;
  config_SystemLabels := {[ "kubedock" := "true" ]};
  config_DefaultLabels := ∅;
  config_DefaultAnnotations := ∅
|}.

#[export] Instance stamp : Stamp := {|
  newID n := "id-" ++ pretty n;
  shortID id := id;
  now n := Z.of_nat n
|}.

(** A cluster: the claims it holds, by namespace and name, and whether the
    API server answers at all. *)
Record cluster := {
  claims : gmap (string * string) corev1.PersistentVolumeClaim;
  reachable : bool
}.

Definition unavailable : error :=
  StatusError (StatusReasonOther "ServiceUnavailable")
              "the server is currently unable to handle the request".

Definition create (ns : string) (pvc : corev1.PersistentVolumeClaim)
    (k : cluster) : option error * cluster :=
  if negb (reachable k) then (Some unavailable, k)
  else
    match claims k !! (ns, corev1.Name pvc) with
    | Some _ =>
      (Some (StatusError StatusReasonAlreadyExists
               ("persistentvolumeclaims " ++ corev1.Name pvc
                  ++ " already exists")), k)
    | None =>
      (None, {| claims := <[(ns, corev1.Name pvc) := pvc]> (claims k);
                reachable := reachable k |})
    end.

Definition delete (ns name : string) (k : cluster) : option error * cluster :=
  if negb (reachable k) then (Some unavailable, k)
  else
    match claims k !! (ns, name) with
    | Some _ =>
      (None, {| claims := base.delete (ns, name) (claims k);
                reachable := reachable k |})
    | None =>
      (Some (StatusError StatusReasonNotFound
               ("persistentvolumeclaims " ++ name ++ " not found")), k)
    end.

#[export] Instance client : ClaimsClient cluster := {|
  pvcCreate := create;
  pvcDelete := delete
|}.

Definition kubedock : backend.instance :=
  {| backend.namespace := "default"; backend.storageClass := "";
     backend.volumeSize := "1Gi"; backend.volumeAccessMode := "" |}.

(** The engine's default network, a network with a container attached and
    a network without. *)
Definition bridge : Network.t :=
  {| Network.ID := "n0"; Network.Name := "bridge"; Network.Labels := ∅;
     Network.Created := 0%Z |}.

Definition backnet : Network.t :=
  {| Network.ID := "n1"; Network.Name := "backnet"; Network.Labels := ∅;
     Network.Created := 0%Z |}.

Definition frontnet : Network.t :=
  {| Network.ID := "n2"; Network.Name := "frontnet"; Network.Labels := ∅;
     Network.Created := 0%Z |}.

Definition web : Container.t :=
  {| Container.ID := "c0"; Container.Name := "web";
     Container.Networks := {[ "n0"; "n1" ]};
     Container.NetworkAliases := [] |}.

(** The volume of the repository's [TestVolumeMatch]. *)
Definition myvolume : Volume.t :=
  {| Volume.ID := "v0"; Volume.ShortID := "v0"; Volume.Name := "myvolume";
     Volume.Driver := "local"; Volume.Labels := {[ "env" := "test" ]};
     Volume.Mountpoint := "/var/lib/kubedock/volumes/myvolume";
     Volume.Created := 0%Z |}.

Definition cache : Volume.t :=
  {| Volume.ID := "v1"; Volume.ShortID := "v1"; Volume.Name := "cache";
     Volume.Driver := "local"; Volume.Labels := ∅;
     Volume.Mountpoint := "/var/lib/kubedock/volumes/cache";
     Volume.Created := 0%Z |}.

(** A volume name long enough for the claim's name to be cut. *)
Definition longname : Volume.t :=
  {| Volume.ID := "v2"; Volume.ShortID := "v2";
     Volume.Name :=
       "Integration-Tests-Postgres-Data-Directory-For-The-Nightly-Run";
     Volume.Driver := "local"; Volume.Labels := ∅; Volume.Mountpoint := "";
     Volume.Created := 0%Z |}.

Definition entities : store.t :=
  {| store.containers := [web];
     store.networks := [bridge; backnet; frontnet];
     store.volumes := [myvolume; cache];
     store.generated := 2 |}.

Definition claimOf (vol : Volume.t) : corev1.PersistentVolumeClaim :=
  backend.claimFor kubedock vol {| quantity := "1Gi" |}.

(** A cluster that holds the claim of [myvolume] and not that of [cache]. *)
Definition running : cluster :=
  {| claims := {[ ("default", "kubedock-vol-myvolume") := claimOf myvolume ]};
     reachable := true |}.

(** The same cluster when the API server does not answer. *)
Definition down : cluster :=
  {| claims := claims running; reachable := false |}.

Definition world : World store.t cluster :=
  Build_World entities running [].

Definition worldDown : World store.t cluster :=
  Build_World entities down [].

(** Messages up to level 3 are written. *)
#[export] Instance verbosity : Verbosity := {|
  klog_V level := (level <=? 3)%Z
|}.

(** The text after the first [=], when [s] starts with [key] and [=]. *)
Fixpoint afterKey (key s : string) : option string :=
  match key, s with
  | EmptyString, String c rest =>
    if bool_decide (c = "="%char) then Some rest else None
  | String a key', String c rest =>
    if bool_decide (a = c) then afterKey key' rest else None
  | _, _ => None
  end.

(** Filter sets with at most a [name] filter, written [name=key]. *)
#[export] Instance filters : Filters := {|
  Filter := option string;
  filter_New s :=
    if bool_decide (s = "") then (None, None)
    else match afterKey "name" s with
         | Some key => (Some key, None)
         | None => (None, Some (errorString "invalid filter"))
         end;
  filter_MatchVolume f vol :=
    match f with
    | Some key => (Volume.Match vol "name" key "").1
    | None => true
    end;
  filter_MatchNetwork f netw :=
    match f with
    | Some key => bool_decide (Network.Name netw = key)
    | None => true
    end
|}.

(** A selector [key=value], cut at its first [=]. *)
Fixpoint cutSelector (s : string) : string * string :=
  match s with
  | EmptyString => ("", "")
  | String c rest =>
    if bool_decide (c = "="%char) then ("", rest)
    else let '(key, value) := cutSelector rest in (String c key, value)
  end.

(** The claims of a namespace that carry the label of a selector [key=value]. *)
Definition listClaims (ns selector : string) (k : cluster)
  : result (list corev1.PersistentVolumeClaim) :=
  if negb (reachable k) then Err unavailable
  else
    let '(key, value) := cutSelector selector in
    Ok (filter (fun pvc => corev1.Namespace pvc = ns
                           /\ corev1.Labels pvc !! key = Some value)
               (map_to_list (claims k)).*2).

#[export] Instance lister : ClaimsLister cluster := {|
  pvcList := listClaims
|}.

(** A pod with a main container and a sidecar, and a pod without containers. *)
Definition pod : Pod.t :=
  {| Pod.Volumes :=
       [{| PodVolume.Name := "scratch";
           PodVolume.Source := VolumeSource.Other "emptyDir" |}];
     Pod.Containers :=
       [{| PodContainer.Name := "main"; PodContainer.Image := "postgres";
           PodContainer.VolumeMounts :=
             [{| VolumeMount.Name := "scratch"; VolumeMount.MountPath := "/tmp";
                 VolumeMount.ReadOnly := false; VolumeMount.SubPath := "" |}] |};
        {| PodContainer.Name := "sidecar"; PodContainer.Image := "busybox";
           PodContainer.VolumeMounts := [] |}] |}.

Definition bare : Pod.t := {| Pod.Volumes := []; Pod.Containers := [] |}.

(** The entity store behind a connection: while [connected] is false the
    containers cannot be listed. *)
Record remote := {
  held : store.t;
  connected : bool
}.

Definition through {A : Type} (r : remote) (res : A * store.t) : A * remote :=
  (res.1, {| held := res.2; connected := connected r |}).

#[export] Instance remoteDatabase : model.Database remote := {|
  model.GetNetworkByNameOrID id r := model.GetNetworkByNameOrID id (held r);
  model.GetNetworks r := model.GetNetworks (held r);
  model.DeleteNetwork n r := through r (model.DeleteNetwork n (held r));
  model.GetContainerByNameOrID id r :=
    model.GetContainerByNameOrID id (held r);
  model.GetContainers r :=
    if connected r then model.GetContainers (held r)
    else Err (errorString "connection lost");
  model.SaveContainer c r := through r (model.SaveContainer c (held r));
  model.GetVolumeByName name r := model.GetVolumeByName name (held r);
  model.GetVolumeByNameOrID id r := model.GetVolumeByNameOrID id (held r);
  model.GetVolumes r := model.GetVolumes (held r);
  model.SaveVolume v r := through r (model.SaveVolume v (held r));
  model.DeleteVolume v r := through r (model.DeleteVolume v (held r))
|}.

Definition worldLost : World remote cluster :=
  Build_World {| held := entities; connected := false |} running [].

(** The claims of [myvolume] and [cache], when the cluster holds both. *)
Definition stocked : cluster :=
  {| claims := {[ ("default", "kubedock-vol-myvolume") := claimOf myvolume;
                  ("default", "kubedock-vol-cache") := claimOf cache ]};
     reachable := true |}.

(** Another volume whose name differs from that of [longname] after its
    fiftieth byte only. *)
Definition longname' : Volume.t :=
  {| Volume.ID := "v3"; Volume.ShortID := "v3";
     Volume.Name :=
       "Integration-Tests-Postgres-Data-Directory-For-The-Weekly-Run";
     Volume.Driver := "local"; Volume.Labels := ∅; Volume.Mountpoint := "";
     Volume.Created := 0%Z |}.

(** A backend whose volume size does not parse. *)
Definition unsized : backend.instance :=
  {| backend.namespace := "default"; backend.storageClass := "gp3-csi";
     backend.volumeSize := ""; backend.volumeAccessMode := "RWX" |}.

(** The entity store with faults: while [listed] is false the volumes cannot
    be listed, and the volumes whose ID is in [pinned] cannot be deleted. *)
Record faulty := {
  under : store.t;
  listed : bool;
  pinned : gset string
}.

Definition over {A : Type} (f : faulty) (res : A * store.t) : A * faulty :=
  (res.1, {| under := res.2; listed := listed f; pinned := pinned f |}).

#[export] Instance faultyDatabase : model.Database faulty := {|
  model.GetNetworkByNameOrID id f := model.GetNetworkByNameOrID id (under f);
  model.GetNetworks f := model.GetNetworks (under f);
  model.DeleteNetwork n f := over f (model.DeleteNetwork n (under f));
  model.GetContainerByNameOrID id f :=
    model.GetContainerByNameOrID id (under f);
  model.GetContainers f := model.GetContainers (under f);
  model.SaveContainer c f := over f (model.SaveContainer c (under f));
  model.GetVolumeByName name f := model.GetVolumeByName name (under f);
  model.GetVolumeByNameOrID id f := model.GetVolumeByNameOrID id (under f);
  model.GetVolumes f :=
    if listed f then model.GetVolumes (under f)
    else Err (errorString "table not found");
  model.SaveVolume v f := over f (model.SaveVolume v (under f));
  model.DeleteVolume v f :=
    if bool_decide (Volume.ID v ∈ pinned f)
    then (Some (errorString "volume is pinned"), f)
    else over f (model.DeleteVolume v (under f))
|}.



(** Containers with stored aliases: lower case and distinct, with a capital,
    and with a repetition. *)
Definition seasoned : Container.t :=
  {| Container.ID := "c1"; Container.Name := "api";
     Container.Networks := {[ "n1" ]};
     Container.NetworkAliases := ["db"; "web"] |}.

Definition legacy : Container.t :=
  {| Container.ID := "c2"; Container.Name := "legacy";
     Container.Networks := ∅;
     Container.NetworkAliases := ["Web"] |}.

Definition doubled : Container.t :=
  {| Container.ID := "c3"; Container.Name := "doubled";
     Container.Networks := ∅;
     Container.NetworkAliases := ["web"; "web"] |}.

Definition crowded : store.t :=
  {| store.containers := [web; seasoned; legacy; doubled];
     store.networks := [bridge; backnet; frontnet];
     store.volumes := [];
     store.generated := 0 |}.

Definition worldCrowded : World store.t cluster :=
  Build_World crowded running [].
End reference.

(** ** What the sweeps are to do, in the words of the specification *)

Section Sweeps.
Context `{Repo} {D K : Type} `{model.Database D} `{ClaimsClient K}.




(** Some container's membership set holds the network's ID. *)
Definition attached (netw : Network.t) (tainrs : list Container.t) : Prop :=
  Exists (fun tainr => Network.ID netw ∈ Container.Networks tainr) tainrs.

#[global] Instance attached_dec netw tainrs : Decision (attached netw tainrs).
Proof. unfold attached. apply _. Defined.

(** A network may go: it is not predefined and no container is attached. *)
Definition prunable (tainrs : list Container.t) (netw : Network.t) : Prop :=
  IsPredefined netw = false /\ ~ attached netw tainrs.

#[global] Instance prunable_dec tainrs netw : Decision (prunable tainrs netw).
Proof. unfold prunable. apply _. Defined.

(** The network shares its ID with none of the networks [gone]. *)
Definition untouchedBy (gone : list Network.t) (x : Network.t) : Prop :=
  Forall (fun n => Network.ID x ≠ Network.ID n) gone.

#[global] Instance untouchedBy_dec gone x : Decision (untouchedBy gone x).
Proof. unfold untouchedBy. apply _. Defined.
End Sweeps.

(** ** What the bulk deletion is to do *)

Section BulkDeletion.
Context {K : Type} `{ClaimsClient K}.

(** The cluster after a delete call for each of the claims, each in its own
    namespace. *)
Definition claimsSwept (items : list corev1.PersistentVolumeClaim) (k : K) : K :=
  foldl (fun k pvc =>
           (pvcDelete (corev1.Namespace pvc) (corev1.Name pvc) k).2) k items.

(** How many of those delete calls fail. *)
Fixpoint failedDeletes (items : list corev1.PersistentVolumeClaim) (k : K) : nat :=
  match items with
  | [] => 0
  | pvc :: rest =>
    let '(err, k') := pvcDelete (corev1.Namespace pvc) (corev1.Name pvc) k in
    (match err with Some _ => 1 | None => 0 end + failedDeletes rest k')%nat
  end.
End BulkDeletion.

Definition isErrorf (e : LogEntry) : bool :=
  match e with
  | Errorf _ => true
  | _ => false
  end.

(** The volume and the mount [addNamedVolumes] adds for a named volume. *)
Definition namedVolume `{Repo} (in_ : backend.instance)
    (entry : string * Volume.t) : PodVolume.t :=
  {| PodVolume.Name := "nv-" ++ toKubernetesName (Volume.Name entry.2);
     PodVolume.Source :=
       VolumeSource.PersistentVolumeClaim
         (backend.getVolumePVCName in_ entry.2) false |}.

Definition namedMount `{Repo} (entry : string * Volume.t) : VolumeMount.t :=
  {| VolumeMount.Name := "nv-" ++ toKubernetesName (Volume.Name entry.2);
     VolumeMount.MountPath := entry.1;
     VolumeMount.ReadOnly := false;
     VolumeMount.SubPath := "" |}.

(** ** What the sweeps call, on any store *)

Section SweepCalls.
Context `{Repo} {D K : Type} `{model.Database D} `{ClaimsClient K}.

(** The store after a deletion call for each of the networks, in order. *)
Definition networksDeleted (netws : list Network.t) (d : D) : D :=
  foldl (fun d netw => (model.DeleteNetwork netw d).2) d netws.

End SweepCalls.

(** * Properties *)

(** ** Matching volumes against filters *)

Section VolumeMatch.
Context `{GoLib}.

Lemma Match_name (v : Volume.t) (key val : string) :
  Volume.Match v "name" key val = Volume.nameMatch v key.
Proof. reflexivity. Qed.

(** C6: a [name] filter matches at once when the key is the volume's name,
    and otherwise matches exactly when the key, read as a regular
    expression, matches the name; when the expression does not compile the
    answer is [false] with the error. *)
Theorem Match_name_exact_then_regexp (v : Volume.t) (key val : string) :
  (Volume.Name v = key -> Volume.Match v "name" key val = (true, None))
  /\ (Volume.Name v <> key ->
      forall m, regexp_MatchString key (Volume.Name v) = (m, None) ->
                Volume.Match v "name" key val = (m, None))
  /\ (Volume.Name v <> key ->
      forall m e, regexp_MatchString key (Volume.Name v) = (m, Some e) ->
                  Volume.Match v "name" key val = (false, Some e)).
Proof.
  rewrite Match_name. unfold Volume.nameMatch.
  repeat split.
  - intros Heq. by rewrite bool_decide_eq_true_2.
  - intros Hne m Hm. rewrite bool_decide_eq_false_2 by done. by rewrite Hm.
  - intros Hne m e Hm. rewrite bool_decide_eq_false_2 by done. by rewrite Hm.
Qed.

(** C7: a [driver] filter matches exactly when the key is the volume's
    driver, a [label] filter exactly when the volume carries the key with
    the given value, and a filter of any other type than [name], [driver]
    and [label] matches; none of them fails. *)
Theorem Match_driver_label_unknown (v : Volume.t) (k val : string) :
  Volume.Match v "driver" k val = (bool_decide (k = Volume.Driver v), None)
  /\ Volume.Match v "label" k val =
       (bool_decide (Volume.Labels v !! k = Some val), None)
  /\ (forall t, t <> "name" -> t <> "driver" -> t <> "label" ->
                Volume.Match v t k val = (true, None)).
Proof.
  repeat split.
  - unfold Volume.Match. simpl. f_equal.
    apply bool_decide_ext. split; congruence.
  - unfold Volume.Match. simpl.
    destruct (Volume.Labels v !! k) as [vv|] eqn:Hl.
    + f_equal. apply bool_decide_ext. split; congruence.
    + by rewrite bool_decide_eq_false_2.
  - intros t Hn Hd Hl. unfold Volume.Match.
    rewrite (bool_decide_eq_false_2 (t = "name")) by done.
    rewrite (bool_decide_eq_false_2 (t = "driver")) by done.
    by rewrite bool_decide_eq_true_2.
Qed.
End VolumeMatch.

(** ** The backend's claims *)

Lemma substring_prefix_length (n : nat) (s : string) :
  String.length (substring 0 n s) = Nat.min n (String.length s).
Proof.
  revert s. induction n as [|n IH]; intros [|c s]; simpl; auto.
Qed.

Lemma substring_prefix (n : nat) (s : string) :
  exists rest, s = substring 0 n s ++ rest.
Proof.
  revert s. induction n as [|n IH]; intros [|c s]; simpl.
  - by exists "".
  - by exists (String c s).
  - by exists "".
  - destruct (IH s) as [rest Hrest]. exists rest.
    change (String c s = String c (substring 0 n s ++ rest)).
    by rewrite <- Hrest.
Qed.

Section BackendClaims.
Context `{GoLib} `{Repo} {K : Type} `{ClaimsClient K}.

Lemma getVolumePVCName_length (in_ : backend.instance) (vol : Volume.t) :
  (String.length (backend.getVolumePVCName in_ vol) <= 63)%nat.
Proof.
  unfold backend.getVolumePVCName.
  destruct (63 <? _)%nat eqn:Hlen.
  - rewrite substring_prefix_length. lia.
  - by apply Nat.ltb_ge in Hlen.
Qed.

(** C8: the claim's name is a function of the volume's name alone, so
    volumes with equal names get equal claim names; it is the prefixed
    name when that has at most 63 bytes and its first 63 bytes otherwise;
    and creating and deleting a volume each compute it anew and address
    the cluster by it. *)
Theorem getVolumePVCName_deterministic_bounded
    (in_ in' : backend.instance) (vol vol' : Volume.t) :
  (Volume.Name vol = Volume.Name vol' ->
     backend.getVolumePVCName in_ vol = backend.getVolumePVCName in' vol')
  /\ (String.length (backend.getVolumePVCName in_ vol) <= 63)%nat
  /\ (let name := "kubedock-vol-" ++ toKubernetesName (Volume.Name vol) in
        ((String.length name <= 63)%nat ->
           backend.getVolumePVCName in_ vol = name)
        /\ ((63 < String.length name)%nat ->
              String.length (backend.getVolumePVCName in_ vol) = 63%nat
              /\ exists rest, name = backend.getVolumePVCName in_ vol ++ rest))
  /\ (forall size k log,
        resource_ParseQuantity (backend.volumeSize in_) = Some size ->
        exists pvc v err log',
          corev1.Name pvc = backend.getVolumePVCName in_ vol
          /\ backend.CreateVolume in_ vol k log =
               Returns (v, err, (pvcCreate (backend.namespace in_) pvc k).2, log'))
  /\ (forall k log,
        exists err log',
          backend.DeleteVolume in_ vol k log =
            (err, (pvcDelete (backend.namespace in_)
                     (backend.getVolumePVCName in_ vol) k).2, log')).
Proof.
  split; [|split; [|split; [|split]]].
  - intros Hname. unfold backend.getVolumePVCName. by rewrite Hname.
  - apply getVolumePVCName_length.
  - cbv zeta. unfold backend.getVolumePVCName. split.
    + intros Hle. apply Nat.ltb_ge in Hle. by rewrite Hle.
    + intros Hlt. pose proof Hlt as Hlt'. apply Nat.ltb_lt in Hlt'.
      rewrite Hlt'. split.
      * rewrite substring_prefix_length. lia.
      * apply substring_prefix.
  - intros size k log Hsize.
    exists (backend.claimFor in_ vol size).
    unfold backend.CreateVolume. rewrite Hsize.
    destruct (pvcCreate _ _ k) as [err k'].
    destruct (backend.createFailed err); simpl; eauto 10.
  - intros k log. unfold backend.DeleteVolume.
    destruct (pvcDelete _ _ k) as [err k'].
    destruct (backend.deleteFailed err); simpl; eauto.
Qed.

(** C3: when the cluster answers the create call with an already-exists
    error, [CreateVolume] succeeds; whenever it succeeds the volume's mount
    point is the fixed prefix followed by the volume's name; and any other
    error of the cluster comes back to the caller, wrapped. *)
Theorem CreateVolume_already_exists_is_success
    (in_ : backend.instance) (vol : Volume.t) (k : K) (log : list LogEntry) :
  (forall size e k',
      resource_ParseQuantity (backend.volumeSize in_) = Some size ->
      pvcCreate (backend.namespace in_) (backend.claimFor in_ vol size) k
        = (Some e, k') ->
      errors.IsAlreadyExists e = true ->
      exists vol' log',
        backend.CreateVolume in_ vol k log = Returns (vol', None, k', log'))
  /\ (forall vol' k' log',
        backend.CreateVolume in_ vol k log = Returns (vol', None, k', log') ->
        Volume.Name vol' = Volume.Name vol
        /\ Volume.Mountpoint vol' =
             "/var/lib/kubedock/volumes/" ++ Volume.Name vol')
  /\ (forall size e k',
        resource_ParseQuantity (backend.volumeSize in_) = Some size ->
        pvcCreate (backend.namespace in_) (backend.claimFor in_ vol size) k
          = (Some e, k') ->
        errors.IsAlreadyExists e = false ->
        backend.CreateVolume in_ vol k log =
          Returns (vol,
                   Some (fmt.Errorfw ("failed to create PVC for volume "
                                        ++ Volume.Name vol ++ ": ") e),
                   k', log)).
Proof.
  split; [|split].
  - intros size e k' Hsize Hcreate Hexists.
    unfold backend.CreateVolume. rewrite Hsize, Hcreate. simpl.
    rewrite Hexists. simpl. eauto.
  - intros vol' k' log'. unfold backend.CreateVolume.
    destruct (resource_ParseQuantity _) as [size|]; [|done].
    destruct (pvcCreate _ _ k) as [err k1].
    destruct (backend.createFailed err); [done|].
    intros [= <- _ _]. done.
  - intros size e k' Hsize Hcreate Hother.
    unfold backend.CreateVolume. rewrite Hsize, Hcreate. simpl.
    by rewrite Hother.
Qed.

(** The backend's [DeleteVolume] succeeds when the cluster answers the
    delete call with a not-found error. *)
Lemma DeleteVolume_not_found_is_success
    (in_ : backend.instance) (vol : Volume.t) (k k' : K)
    (log : list LogEntry) (e : error) :
  pvcDelete (backend.namespace in_) (backend.getVolumePVCName in_ vol) k
    = (Some e, k') ->
  errors.IsNotFound e = true ->
  exists log', backend.DeleteVolume in_ vol k log = (None, k', log').
Proof.
  intros Hdel Hnf. unfold backend.DeleteVolume. rewrite Hdel. simpl.
  rewrite Hnf. simpl. eauto.
Qed.
End BackendClaims.

(** ** Facts about the entity store *)

Section StoreFacts.
Context {A : Type} (getID getName : A -> string).

Lemma find_some_elem (p : A -> bool) (l : list A) (e : A) :
  List.find p l = Some e -> e ∈ l /\ p e = true.
Proof.
  intros Hfind. apply List.find_some in Hfind as [Hin Hp].
  split; [by apply list_elem_of_In | done].
Qed.

Lemma byName_Ok (name : string) (l : list A) (e : A) :
  store.byName getName name l = Ok e -> e ∈ l /\ getName e = name.
Proof.
  unfold store.byName.
  destruct (List.find _ l) as [e'|] eqn:Hfind; [|done].
  intros [= ->]. apply find_some_elem in Hfind as [Hin Hp].
  split; [done | by apply bool_decide_eq_true_1 in Hp].
Qed.

Lemma byName_present (name : string) (l : list A) (e : A) :
  e ∈ l -> getName e = name -> exists e', store.byName getName name l = Ok e'.
Proof.
  intros Hin Hname. unfold store.byName.
  destruct (List.find _ l) as [e'|] eqn:Hfind; [eauto|].
  exfalso. apply list_elem_of_In in Hin.
  pose proof (List.find_none _ _ Hfind _ Hin) as Hp. simpl in Hp.
  by rewrite bool_decide_eq_true_2 in Hp.
Qed.

Lemma byNameOrID_Ok (id : string) (l : list A) (e : A) :
  store.byNameOrID getID getName id l = Ok e -> e ∈ l.
Proof.
  unfold store.byNameOrID.
  destruct (List.find _ l) as [e'|] eqn:Hfind.
  - intros [= ->]. by apply find_some_elem in Hfind as [Hin _].
  - intros Hname. by apply byName_Ok in Hname as [Hin _].
Qed.

Lemma existsb_ID (e : A) (l : list A) :
  e ∈ l -> List.existsb (fun x => bool_decide (getID x = getID e)) l = true.
Proof.
  intros Hin. apply List.existsb_exists. exists e.
  split; [by apply list_elem_of_In | by apply bool_decide_eq_true_2].
Qed.

Lemma remove_present (e : A) (l : list A) :
  e ∈ l ->
  store.remove getID e l = (None, filter (fun x => getID x ≠ getID e) l).
Proof. intros Hin. unfold store.remove. by rewrite existsb_ID. Qed.

Lemma filter_all (P : A -> Prop) `{!forall x, Decision (P x)} (l : list A) :
  (forall x, x ∈ l -> P x) -> filter P l = l.
Proof.
  induction l as [|x l IH]; intros Hall; [done|].
  rewrite filter_cons_True by (apply Hall; left).
  f_equal. apply IH. intros y Hy. apply Hall. by right.
Qed.


End StoreFacts.

(** ** The volume endpoints *)

Section VolumeEndpoints.
Context `{GoLib} `{Repo} {D K : Type} `{model.Database D} `{ClaimsClient K}.
Variable in_ : backend.instance.

Lemma Backend_DeleteVolume_world (vol : Volume.t) (w : World D K) :
  db (Backend_DeleteVolume in_ vol w).2 = db w
  /\ cluster (Backend_DeleteVolume in_ vol w).2 =
       (pvcDelete (backend.namespace in_)
                  (backend.getVolumePVCName in_ vol) (cluster w)).2.
Proof.
  unfold Backend_DeleteVolume, backend.DeleteVolume.
  destruct (pvcDelete _ _ (cluster w)) as [err k'].
  destruct (backend.deleteFailed err); done.
Qed.


Lemma docker_VolumeCreate_existing (req : docker.VolumeCreateRequest)
    (existing : Volume.t) (w : World D K) :
  model.GetVolumeByName (docker.Name req) (db w) = Ok existing ->
  docker.VolumeCreate in_ (Ok req) w =
    Returns (JSONResponse http.StatusCreated (docker.volumeToJSON existing), w).
Proof. intros Hget. unfold docker.VolumeCreate. by rewrite Hget. Qed.

Lemma libpod_VolumeCreate_existing (req : libpod.VolumeCreateRequest)
    (existing : Volume.t) (w : World D K) :
  model.GetVolumeByName (libpod.Name req) (db w) = Ok existing ->
  libpod.VolumeCreate in_ (Ok req) w =
    Returns (JSONResponse http.StatusCreated
               (libpod.volumeToLibpodJSON existing), w).
Proof. intros Hget. unfold libpod.VolumeCreate. by rewrite Hget. Qed.

(** The two dialects delete a volume in the same way. *)
Lemma libpod_VolumeDelete_docker (name : string) (w : World D K) :
  libpod.VolumeDelete in_ name w = docker.VolumeDelete in_ name w.
Proof. reflexivity. Qed.

(** C9: the backend's [DeleteVolume] succeeds when the cluster answers the
    delete call with a not-found error; and the delete endpoint, once the
    volume is found, deletes it from the entity store whatever the backend
    answered, answers 204 exactly when that deletion succeeds, and leaves a
    warning in the log when the backend failed. *)
Theorem VolumeDelete_tolerates_backend_failure
    (id : string) (vol : Volume.t) (w : World D K) :
  (forall e k',
      pvcDelete (backend.namespace in_) (backend.getVolumePVCName in_ vol)
                (cluster w) = (Some e, k') ->
      errors.IsNotFound e = true ->
      exists log', backend.DeleteVolume in_ vol (cluster w) (klog w)
                   = (None, k', log'))
  /\ (model.GetVolumeByNameOrID id (db w) = Ok vol ->
      let berr := (Backend_DeleteVolume in_ vol w).1 in
      let dberr := (model.DeleteVolume vol (db w)).1 in
      let resp := (docker.VolumeDelete in_ id w).1 in
      let w' := (docker.VolumeDelete in_ id w).2 in
      db w' = (model.DeleteVolume vol (db w)).2
      /\ (dberr = None -> resp = HeaderResponse http.StatusNoContent)
      /\ (forall err, dberr = Some err ->
                      resp = ErrorResponse http.StatusNotFound err)
      /\ (forall err, berr = Some err ->
            Warningf ("error deleting k8s PVC for volume: " ++ Error err)
              ∈ klog w')).
Proof.
  split.
  - intros e k' Hdel Hnf. by eapply DeleteVolume_not_found_is_success.
  - intros Hget. cbv zeta. unfold docker.VolumeDelete. rewrite Hget.
    pose proof (Backend_DeleteVolume_world vol w) as [Hdb _].
    destruct (Backend_DeleteVolume in_ vol w) as [berr w1]. simpl in Hdb.
    set (w2 := match berr with Some err => _ | None => w1 end).
    assert (Hdb2 : db w2 = db w) by (subst w2; by destruct berr).
    assert (Hlog2 : forall err, berr = Some err ->
              Warningf ("error deleting k8s PVC for volume: " ++ Error err)
                ∈ klog w2).
    { intros err ->. subst w2. simpl. set_solver. }
    rewrite Hdb2.
    destruct (model.DeleteVolume vol (db w)) as [[err|] d3]; simpl;
      repeat split; try done; try (by intros ? [= ->]); auto.
Qed.
End VolumeEndpoints.

Section PruneLoops.
Context `{GoLib} `{Repo} {D K : Type} `{model.Database D} `{ClaimsClient K}.
Variable in_ : backend.instance.




End PruneLoops.

(** ** The volume endpoints on the entity store *)

Lemma NoDup_fmap_elem {A B : Type} (f : A -> B) (l : list A) (x y : A) :
  NoDup (f <$> l) -> x ∈ l -> y ∈ l -> f x = f y -> x = y.
Proof.
  induction l as [|a l IH]; intros Hnd Hx Hy Hf; [by apply elem_of_nil in Hx|].
  rewrite fmap_cons in Hnd. apply NoDup_cons in Hnd as [Hnotin Hnd].
  apply elem_of_cons in Hx as [->|Hx]; apply elem_of_cons in Hy as [->|Hy].
  - done.
  - exfalso. apply Hnotin. rewrite Hf. by apply list_elem_of_fmap_2.
  - exfalso. apply Hnotin. rewrite <- Hf. by apply list_elem_of_fmap_2.
  - by apply IH.
Qed.

Section VolumesOnStore.
Context `{GoLib} `{Repo} `{Stamp} {K : Type} `{ClaimsClient K}.
Variable in_ : backend.instance.

(** C2: when the store holds a volume named [N], a create request for [N]
    on either dialect answers 201 with a stored volume of that name (the
    stored volume, names being unique) and changes nothing: neither the
    store nor, whatever the client, the cluster or the log, so the backend's
    [CreateVolume] is not called. *)
Theorem VolumeCreate_existing_name_is_returned
    (s : store.t) (k : K) (log : list LogEntry) (N : string) (v : Volume.t)
    (dreq : docker.VolumeCreateRequest) (lreq : libpod.VolumeCreateRequest) :
  v ∈ store.volumes s -> Volume.Name v = N ->
  docker.Name dreq = N -> libpod.Name lreq = N ->
  exists existing,
    existing ∈ store.volumes s
    /\ Volume.Name existing = N
    /\ (NoDup (Volume.Name <$> store.volumes s) -> existing = v)
    /\ docker.VolumeCreate in_ (Ok dreq) (Build_World s k log) =
         Returns (JSONResponse http.StatusCreated
                    (docker.volumeToJSON existing), Build_World s k log)
    /\ libpod.VolumeCreate in_ (Ok lreq) (Build_World s k log) =
         Returns (JSONResponse http.StatusCreated
                    (libpod.volumeToLibpodJSON existing), Build_World s k log).
Proof.
  intros Hin Hname Hd Hl.
  destruct (byName_present Volume.Name N (store.volumes s) v Hin Hname)
    as [existing Hfound].
  pose proof (byName_Ok _ _ _ _ Hfound) as [Hin' Hname'].
  exists existing. repeat split; try done.
  - intros Hnd. eapply NoDup_fmap_elem; eauto. congruence.
  - apply docker_VolumeCreate_existing. simpl. by rewrite Hd.
  - apply libpod_VolumeCreate_existing. simpl. by rewrite Hl.
Qed.


End VolumesOnStore.

(** ** The network endpoints *)

Section NetworkEndpoints.
Context `{GoLib} `{Repo} {D K : Type} `{model.Database D} `{ClaimsClient K}.

(** The scan of the containers finds something exactly when a container
    is attached. *)
Lemma containersInNetwork_size (tainrs : list Container.t) (netw : Network.t)
    (res : gmap string JSON) :
  size (libpod.containersInNetwork tainrs netw res) ≠ 0 <->
  size res ≠ 0 \/ attached netw tainrs.
Proof.
  unfold attached. revert res.
  induction tainrs as [|tainr rest IH]; intros res; simpl.
  - rewrite Exists_nil. tauto.
  - rewrite IH, Exists_cons. case_bool_decide as Hmem.
    + rewrite map_size_non_empty_iff.
      pose proof (insert_non_empty res (Container.ID tainr)
                    (JObject [("Name", JString (Container.Name tainr))])).
      tauto.
    + tauto.
Qed.

Lemma getContainersInNetwork_listed (tainrs : list Container.t)
    (netw : Network.t) (w : World D K) :
  model.GetContainers (db w) = Ok tainrs ->
  libpod.getContainersInNetwork netw w =
    (libpod.containersInNetwork tainrs netw ∅, w).
Proof. intros Hlist. unfold libpod.getContainersInNetwork. by rewrite Hlist. Qed.

Lemma members_attached (tainrs : list Container.t) (netw : Network.t) :
  size (libpod.containersInNetwork tainrs netw ∅) ≠ 0 <-> attached netw tainrs.
Proof.
  rewrite containersInNetwork_size, map_size_empty. tauto.
Qed.

End NetworkEndpoints.

(** ** The network endpoints on the entity store *)

Lemma filter_ext_elem {A : Type} (P Q : A -> Prop)
    `{!forall x, Decision (P x)} `{!forall x, Decision (Q x)} (l : list A) :
  (forall x, x ∈ l -> P x <-> Q x) -> filter P l = filter Q l.
Proof.
  induction l as [|a l IH]; intros Hext; [done|].
  assert (Hl : forall x, x ∈ l -> P x <-> Q x)
    by (intros x Hx; apply Hext; by right).
  destruct (decide (P a)) as [Hp|Hp].
  - rewrite !filter_cons_True; [by rewrite IH| |done].
    apply Hext; [by left|done].
  - rewrite !filter_cons_False; [by apply IH| |done].
    intros Hq. apply Hp. apply Hext; [by left|done].
Qed.

Section NetworksOnStore.
Context `{GoLib} `{Repo} `{Stamp} {K : Type} `{ClaimsClient K}.

Lemma setNetworks_same (s : store.t) : store.setNetworks s (store.networks s) = s.
Proof. by destruct s. Qed.

Lemma store_DeleteNetwork_present (netw : Network.t) (s : store.t) :
  netw ∈ store.networks s ->
  store.DeleteNetwork netw s =
    (None, store.setNetworks s
             (filter (fun x => Network.ID x ≠ Network.ID netw)
                     (store.networks s))).
Proof.
  intros Hin. unfold store.DeleteNetwork.
  by rewrite (remove_present Network.ID netw _ Hin).
Qed.

(** What [NetworkDelete] does to a network the store resolves. *)
Lemma NetworkDelete_resolved (s : store.t) (k : K) (log : list LogEntry)
    (id : string) (netw : Network.t) :
  model.GetNetworkByNameOrID id s = Ok netw ->
  libpod.NetworkDelete id (Build_World s k log) =
    if IsPredefined netw then
      (ErrorResponse http.StatusForbidden
         (fmt.Errorf (Network.Name netw
            ++ " is a pre-defined network and cannot be removed")),
       Build_World s k log)
    else if decide (attached netw (store.containers s)) then
      (ErrorResponse http.StatusConflict
         (fmt.Errorf "cannot delete network, containers attached"),
       Build_World s k log)
    else
      (JSONResponse http.StatusOK (JArray [libpod.networkToLibpodJSON netw]),
       Build_World (store.setNetworks s
                      (filter (fun x => Network.ID x ≠ Network.ID netw)
                              (store.networks s))) k log).
Proof.
  intros Hnet. pose proof Hnet as Hin. apply byNameOrID_Ok in Hin.
  unfold libpod.NetworkDelete. simpl db. rewrite Hnet.
  destruct (IsPredefined netw); [done|].
  rewrite (getContainersInNetwork_listed (store.containers s)) by done.
  pose proof (members_attached (store.containers s) netw) as Hmem.
  case_bool_decide as Hsize; destruct (decide (attached _ _)) as [Hatt|Hatt];
    try tauto.
  simpl db. change (model.DeleteNetwork netw s) with (store.DeleteNetwork netw s).
  by rewrite store_DeleteNetwork_present.
Qed.

Lemma pruneNetworks_store (netws : list Network.t) (pruned : list JSON)
    (s : store.t) (k : K) (log : list LogEntry) :
  NoDup (Network.ID <$> netws) ->
  (forall n, n ∈ netws -> n ∈ store.networks s) ->
  libpod.pruneNetworks netws pruned (Build_World s k log) =
    (Ok (pruned ++ (libpod.networkToLibpodJSON
                      <$> filter (prunable (store.containers s)) netws))%list,
     Build_World
       (store.setNetworks s
          (filter (untouchedBy (filter (prunable (store.containers s)) netws))
                  (store.networks s))) k log).
Proof.
  revert pruned s. induction netws as [|n rest IH]; intros pruned s Hnd Hin.
  - simpl. rewrite app_nil_r, filter_all, setNetworks_same; [done|].
    intros x _. apply Forall_nil_2.
  - rewrite fmap_cons in Hnd. apply NoDup_cons in Hnd as [Hfresh Hnd].
    assert (Hskip : ~ prunable (store.containers s) n ->
              libpod.pruneNetworks rest pruned (Build_World s k log) =
              (Ok (pruned ++ (libpod.networkToLibpodJSON
                      <$> filter (prunable (store.containers s)) (n :: rest)))%list,
               Build_World
                 (store.setNetworks s
                    (filter (untouchedBy
                               (filter (prunable (store.containers s)) (n :: rest)))
                            (store.networks s))) k log)).
    { intros Hno. rewrite filter_cons_False by done.
      apply IH; [done|]. intros m Hm. apply Hin. by right. }
    simpl libpod.pruneNetworks.
    destruct (IsPredefined n) eqn:Hpre.
    { apply Hskip. intros [Hp _]. congruence. }
    pose proof (members_attached (store.containers s) n) as Hmem.
    case_bool_decide as Hsize.
    { apply Hskip. intros [_ Hp]. tauto. }
    assert (Hprunable : prunable (store.containers s) n)
      by (split; [done|tauto]).
    rewrite store_DeleteNetwork_present by (apply Hin; by left).
    unfold setDB. simpl.
    rewrite IH; [|done|].
    + simpl. rewrite filter_cons_True by done. rewrite fmap_cons.
      rewrite <- app_assoc. simpl. do 3 f_equal.
      unfold store.setNetworks. simpl. f_equal.
      rewrite list_filter_filter. apply list_filter_iff.
      intros x. unfold untouchedBy. rewrite Forall_cons. tauto.
    + intros m Hm. simpl. apply list_elem_of_filter. split.
      * intros Heq. apply Hfresh. rewrite <- Heq.
        by apply list_elem_of_fmap_2.
      * apply Hin. by right.
Qed.
End NetworksOnStore.

(** ** Connecting a container to a network *)

Lemma NoDup_filter_eq_length {A : Type} `{EqDecision A} (l : list A) (x : A) :
  NoDup l -> x ∈ l -> length (filter (fun y => y = x) l) = 1.
Proof.
  induction l as [|a l IH]; intros Hnd Hx; [by apply elem_of_nil in Hx|].
  apply NoDup_cons in Hnd as [Hnotin Hnd].
  destruct (decide (a = x)) as [->|Hne].
  - rewrite filter_cons_True by done. simpl. f_equal.
    apply length_zero_iff_nil. apply elem_of_nil_inv.
    intros y [-> Hy]%list_elem_of_filter. done.
  - rewrite filter_cons_False by done.
    apply IH; [done|]. apply elem_of_cons in Hx as [->|Hx]; done.
Qed.

Section Aliases.
Context `{GoLib}.

Lemma aliasesDone_from (aliases : list string) (done0 : gmap string string)
    (x : string) :
  is_Some (foldl (fun done a => <[a := a]> done) done0 aliases !! x)
  <-> is_Some (done0 !! x) \/ x ∈ aliases.
Proof.
  revert done0. induction aliases as [|a rest IH]; intros done0; simpl.
  - rewrite elem_of_nil. tauto.
  - rewrite IH, elem_of_cons, lookup_insert_is_Some'. 
    split; [intros [[->|?]|?]|intros [?|[->|?]]]; auto.
Qed.

Lemma aliasesDone_elem (aliases : list string) (x : string) :
  is_Some (libpod.aliasesDone aliases !! x) <-> x ∈ aliases.
Proof.
  unfold libpod.aliasesDone. rewrite aliasesDone_from, lookup_empty.
  split; [intros [[? [=]]|?]|]; auto.
Qed.

(** The second loop keeps the aliases it starts from, adds lowered aliases
    that are not there yet, each once, and ends with every lowered alias
    in the list. *)
Lemma addAlias_fold (aliases l : list string) (done : gmap string string) :
  (forall x, is_Some (done !! x) <-> x ∈ l) ->
  NoDup l ->
  NoDup (foldl libpod.addAlias (l, done) aliases).1
  /\ (exists added,
        (foldl libpod.addAlias (l, done) aliases).1 = (l ++ added)%list
        /\ forall x, x ∈ added ->
                     (x ∉ l) /\ exists a, a ∈ aliases /\ x = strings.ToLower a)
  /\ (forall a, a ∈ aliases ->
                strings.ToLower a ∈ (foldl libpod.addAlias (l, done) aliases).1).
Proof.
  revert l done. induction aliases as [|a rest IH]; intros l done Hdone Hnd.
  - simpl. split; [done|split].
    + exists []. rewrite app_nil_r. split; [done|].
      intros x Hx. by apply elem_of_nil in Hx.
    + intros a Ha. by apply elem_of_nil in Ha.
  - change (foldl libpod.addAlias (l, done) (a :: rest))
      with (foldl libpod.addAlias (libpod.addAlias (l, done) a) rest).
    unfold libpod.addAlias at 2 4 6. cbn [fst snd].
    destruct (done !! strings.ToLower a) as [seen|] eqn:Hseen.
    + assert (Hin : strings.ToLower a ∈ l) by (apply Hdone; eauto).
      destruct (IH l done Hdone Hnd) as (IHnd & (added & IHeq & IHadded) & IHall).
      split; [done|split].
      * exists added. split; [done|]. intros x Hx.
        destruct (IHadded x Hx) as [Hnotin (b & Hb & ->)].
        split; [done|]. exists b. split; [by right|done].
      * intros b [->|Hb]%elem_of_cons; [|by apply IHall].
        rewrite IHeq. apply elem_of_app. by left.
    + assert (Hnotin : strings.ToLower a ∉ l).
      { intros Hin. apply Hdone in Hin as [? ?]. congruence. }
      destruct (IH (l ++ [strings.ToLower a])%list
                   (<[strings.ToLower a := strings.ToLower a]> done))
        as (IHnd & (added & IHeq & IHadded) & IHall).
      { intros x. rewrite lookup_insert_is_Some', elem_of_app, Hdone.
        rewrite list_elem_of_singleton. split; [intros [->|?]|intros [? | ->]]; auto. }
      { apply NoDup_app. split; [done|split].
        - intros x Hx ->%list_elem_of_singleton. done.
        - apply NoDup_singleton. }
      split; [done|split].
      * exists (strings.ToLower a :: added). split.
        { rewrite IHeq, <- app_assoc. done. }
        intros x [->|Hx]%elem_of_cons.
        { split; [done|]. exists a. split; [by left|done]. }
        destruct (IHadded x Hx) as [Hnot (b & Hb & ->)].
        split.
        { intros Hl. apply Hnot. apply elem_of_app. by left. }
        exists b. split; [by right|done].
      * intros b [->|Hb]%elem_of_cons; [|by apply IHall].
        rewrite IHeq. apply elem_of_app. left. apply elem_of_app. right.
        by apply list_elem_of_singleton.
Qed.
End Aliases.

Section NetworkConnect.
Context `{GoLib} `{Repo} {D K : Type} `{model.Database D} `{ClaimsClient K}.

Lemma lowerByte_idempotent (c : ascii) :
  strings.lowerByte (strings.lowerByte c) = strings.lowerByte c.
Proof. by destruct c as [[] [] [] [] [] [] [] []]. Qed.

Lemma lowerByte_ascii (c : ascii) :
  strings.notASCII (strings.lowerByte c) = strings.notASCII c.
Proof. by destruct c as [[] [] [] [] [] [] [] []]. Qed.

(** On plain ASCII text, lowering twice is lowering once. *)
Lemma ToLower_ascii_idempotent (s : string) :
  strings.isASCII s = true ->
  strings.ToLower (strings.ToLower s) = strings.ToLower s.
Proof.
  intros Hascii. unfold strings.ToLower. rewrite Hascii.
  assert (Hlow : strings.isASCII (strings.mapBytes strings.lowerByte s) = true).
  { induction s as [|c s IH]; [done|]. simpl in *.
    rewrite lowerByte_ascii. destruct (strings.notASCII c); [done|by apply IH]. }
  rewrite Hlow. clear. induction s as [|c s IH]; [done|]. simpl.
  by rewrite lowerByte_idempotent, IH.
Qed.

Lemma mergeAliases_ConnectNetwork (tainr : Container.t) (id : string)
    (aliases : list string) :
  libpod.mergeAliases (Container.ConnectNetwork tainr id) aliases
  = libpod.mergeAliases tainr aliases.
Proof. reflexivity. Qed.

(** C5: a connect that succeeds stores the container as a member of the
    network with the merged alias list. For a container whose stored
    aliases are distinct, the merged list keeps them, holds the lower-cased
    form of every requested alias exactly once, and holds nothing else; it
    has no two entries equal up to case when the stored aliases are lower
    case. Connecting with [Web], [web], [API] to a container without
    aliases stores exactly [web] and [api]. *)
Theorem NetworkConnect_merges_aliases
    (id : string) (req : libpod.NetworkConnectRequest) (w : World D K) :
  (forall resp w',
      libpod.NetworkConnect id (Ok req) w = (resp, w') ->
      statusOf resp = http.StatusOK ->
      exists netw tainr stored,
        model.GetNetworkByNameOrID id (db w) = Ok netw
        /\ model.GetContainerByNameOrID (libpod.Container req) (db w) = Ok tainr
        /\ model.SaveContainer stored (db w) = (None, db w')
        /\ Container.ID stored = Container.ID tainr
        /\ Network.ID netw ∈ Container.Networks stored
        /\ Container.NetworkAliases stored =
             libpod.mergeAliases tainr (libpod.Aliases req))
  /\ (forall tainr,
        NoDup (Container.NetworkAliases tainr) ->
        let merged := libpod.mergeAliases tainr (libpod.Aliases req) in
        NoDup merged
        /\ (exists added,
              merged = (Container.NetworkAliases tainr ++ added)%list
              /\ forall x, x ∈ added ->
                   exists a, a ∈ libpod.Aliases req /\ x = strings.ToLower a)
        /\ (forall a, a ∈ libpod.Aliases req ->
              length (filter (fun x => x = strings.ToLower a) merged) = 1)
        /\ (Forall (fun x => strings.ToLower x = x)
                   (Container.NetworkAliases tainr) ->
            Forall (fun a => strings.ToLower (strings.ToLower a)
                             = strings.ToLower a) (libpod.Aliases req) ->
            NoDup (strings.ToLower <$> merged)))
  /\ (forall tainr,
        Container.NetworkAliases tainr = [] ->
        libpod.mergeAliases tainr ["Web"; "web"; "API"] = ["web"; "api"]).
Proof.
  split; [|split].
  - intros resp w'. unfold libpod.NetworkConnect.
    destruct (model.GetNetworkByNameOrID id (db w)) as [netw|err];
      [|by intros [= <- <-]].
    destruct (model.GetContainerByNameOrID _ (db w)) as [tainr|err];
      [|by intros [= <- <-]].
    destruct (model.SaveContainer _ (db w)) as [[err|] d1] eqn:Hsave;
      [by intros [= <- <-]|].
    intros [= <- <-] _.
    exists netw, tainr,
      (Container.setNetworkAliases
         (Container.ConnectNetwork tainr (Network.ID netw))
         (libpod.mergeAliases
            (Container.ConnectNetwork tainr (Network.ID netw))
            (libpod.Aliases req))).
    split; [done|split; [done|split; [exact Hsave|split; [done|split]]]].
    + simpl. set_solver.
    + done.
  - intros tainr Hnd merged.
    destruct (addAlias_fold (libpod.Aliases req)
                (Container.NetworkAliases tainr)
                (libpod.aliasesDone (Container.NetworkAliases tainr))
                (aliasesDone_elem _) Hnd)
      as (Hnd' & (added & Heq & Hadded) & Hall).
    fold (libpod.mergeAliases tainr (libpod.Aliases req)) in Hnd', Heq, Hall.
    fold merged in Hnd', Heq, Hall.
    split; [done|split; [|split]].
    + exists added. split; [done|]. intros x Hx. by apply Hadded.
    + intros a Ha. apply NoDup_filter_eq_length; [done|by apply Hall].
    + intros Hfixed Hidem.
      assert (Hsame : strings.ToLower <$> merged = merged).
      { rewrite <- (list_fmap_id merged) at 2. apply list_fmap_ext.
        intros i x Hx. simpl.
        assert (Hel : x ∈ merged) by (by eapply list_elem_of_lookup_2).
        rewrite Heq in Hel. apply elem_of_app in Hel as [Hold|Hnew].
        - by apply (proj1 (Forall_forall _ _) Hfixed).
        - destruct (Hadded x Hnew) as [_ (a & Ha & ->)].
          by apply (proj1 (Forall_forall _ _) Hidem). }
      by rewrite Hsame.
  - intros tainr Hnone. unfold libpod.mergeAliases. rewrite Hnone.
    reflexivity.
Qed.
End NetworkConnect.

(** * Further properties *)

(** ** The backend *)

Lemma substring_short (n : nat) (s : string) :
  (String.length s <= n)%nat -> substring 0 n s = s.
Proof.
  revert s. induction n as [|n IH]; intros [|c s] Hlen; simpl in *;
    try done; try lia.
  f_equal. apply IH. lia.
Qed.

Lemma substring_app_prefix (p s : string) (n : nat) :
  substring 0 (String.length p + n) (p ++ s) = p ++ substring 0 n s.
Proof.
  induction p as [|c p IH]; [done|].
  change (String c (substring 0 (String.length p + n) (p ++ s))
          = String c (p ++ substring 0 n s)).
  by rewrite IH.
Qed.

Lemma length_app_string (p s : string) :
  String.length (p ++ s) = (String.length p + String.length s)%nat.
Proof.
  induction p as [|c p IH]; [done|].
  change (S (String.length (p ++ s)) = S (String.length p + String.length s)).
  by rewrite IH.
Qed.

Section BackendMore.
Context `{GoLib} `{Repo} `{Verbosity} {K : Type}
        `{ClaimsClient K} `{ClaimsLister K}.

(** The claim's name is the prefix [kubedock-vol-] followed by the first 50
    bytes of the sanitized volume name, so two volumes whose sanitized names
    agree on their first 50 bytes get the same claim. *)
Theorem getVolumePVCName_keeps_50_bytes
    (in_ : backend.instance) (vol vol' : Volume.t) :
  backend.getVolumePVCName in_ vol =
    "kubedock-vol-" ++ substring 0 50 (toKubernetesName (Volume.Name vol))
  /\ (substring 0 50 (toKubernetesName (Volume.Name vol))
        = substring 0 50 (toKubernetesName (Volume.Name vol')) ->
      backend.getVolumePVCName in_ vol = backend.getVolumePVCName in_ vol').
Proof.
  assert (Hname : forall v, backend.getVolumePVCName in_ v =
            "kubedock-vol-" ++ substring 0 50 (toKubernetesName (Volume.Name v))).
  { intros v. unfold backend.getVolumePVCName.
    pose proof (length_app_string "kubedock-vol-"
                  (toKubernetesName (Volume.Name v))) as Hlen.
    destruct (63 <? _)%nat eqn:Hcut.
    - apply (substring_app_prefix "kubedock-vol-" _ 50).
    - apply Nat.ltb_ge in Hcut. rewrite substring_short; [done|].
      rewrite Hlen in Hcut. simpl in Hcut. lia. }
  split; [apply Hname|]. intros Heq. by rewrite !Hname, Heq.
Qed.

(** [CreateVolume] panics exactly when the configured volume size does not
    parse. When it returns, it has made one create call, for the claim of
    the volume, and has changed nothing of the volume but its mount point;
    when it returns an error, the volume and the log are as they were. *)
Theorem CreateVolume_one_call_mountpoint_only
    (in_ : backend.instance) (vol : Volume.t) (k : K) (log : list LogEntry) :
  (backend.CreateVolume in_ vol k log = Panics
     <-> resource_ParseQuantity (backend.volumeSize in_) = None)
  /\ (forall vol' err k' log',
        backend.CreateVolume in_ vol k log = Returns (vol', err, k', log') ->
        (exists size,
            resource_ParseQuantity (backend.volumeSize in_) = Some size
            /\ k' = (pvcCreate (backend.namespace in_)
                               (backend.claimFor in_ vol size) k).2)
        /\ vol' = Volume.setMountpoint vol (Volume.Mountpoint vol')
        /\ (forall e, err = Some e -> vol' = vol /\ log' = log)).
Proof.
  unfold backend.CreateVolume.
  destruct (resource_ParseQuantity _) as [size|]; [|by split].
  destruct (pvcCreate _ _ k) as [cerr k1] eqn:Hcreate.
  split.
  { destruct (backend.createFailed cerr); by split. }
  intros vol' err k' log'.
  destruct (backend.createFailed cerr) as [e|]; intros [= <- <- <- <-].
  - split; [exists size; by rewrite Hcreate|]. split; [by destruct vol|].
    by intros e' _.
  - split; [exists size; by rewrite Hcreate|]. split; [done|].
    by intros e' [=].
Qed.

(** The claim [CreateVolume] sends: the volume's short ID is its
    [kubedock.volumeid] label whatever the configured labels say, the other
    labels are the default labels and, where those are silent, the system
    labels; the volume's name is its [kubedock.volumename] annotation; it
    asks for one access mode, [ReadWriteOnce] unless the configured mode is
    one of the four other spellings; and it names a storage class exactly
    when one is configured. *)
Theorem claimFor_labels_mode_class
    (in_ : backend.instance) (vol : Volume.t) (size : Quantity) :
  let pvc := backend.claimFor in_ vol size in
  corev1.Labels pvc !! "kubedock.volumeid" = Some (Volume.ShortID vol)
  /\ (forall key, key <> "kubedock.volumeid" ->
        corev1.Labels pvc !! key =
          match config_DefaultLabels !! key with
          | Some v => Some v
          | None => config_SystemLabels !! key
          end)
  /\ corev1.Annotations pvc !! "kubedock.volumename" = Some (Volume.Name vol)
  /\ (forall key, key <> "kubedock.volumename" ->
        corev1.Annotations pvc !! key = config_DefaultAnnotations !! key)
  /\ (exists mode, corev1.AccessModes pvc = [mode]
        /\ (mode = corev1.ReadWriteMany <->
              backend.volumeAccessMode in_ = "ReadWriteMany"
              \/ backend.volumeAccessMode in_ = "RWX")
        /\ (mode = corev1.ReadOnlyMany <->
              backend.volumeAccessMode in_ = "ReadOnlyMany"
              \/ backend.volumeAccessMode in_ = "ROX"))
  /\ (corev1.StorageClassName pvc = None <-> backend.storageClass in_ = "")
  /\ (forall class, corev1.StorageClassName pvc = Some class ->
        class = backend.storageClass in_).
Proof.
  cbv zeta. unfold backend.claimFor. simpl.
  split; [|split; [|split; [|split; [|split; [|split]]]]].
  - unfold backend.claimLabels. by rewrite lookup_insert_eq.
  - intros key Hkey. unfold backend.claimLabels.
    rewrite lookup_insert_ne by done. rewrite lookup_union.
    destruct (config_DefaultLabels !! key), (config_SystemLabels !! key); done.
  - unfold backend.claimAnnotations. by rewrite lookup_insert_eq.
  - intros key Hkey. unfold backend.claimAnnotations.
    by rewrite lookup_insert_ne.
  - eexists. split; [done|]. unfold backend.parseAccessMode.
    repeat case_bool_decide; simpl; split; split;
      try done; try (intros [?|?]; congruence); auto.
  - case_bool_decide as Hclass; split; done.
  - intros class. case_bool_decide; [by intros [= <-]|done].
Qed.

(** [DeleteVolume] makes one delete call, for the claim of the volume. It
    fails exactly when the cluster fails with something other than not-found,
    and then hands that error back wrapped, with its reason intact, and logs
    nothing; otherwise it logs the deletion, also when the claim was not
    there. *)
Theorem DeleteVolume_fails_on_other_errors
    (in_ : backend.instance) (vol : Volume.t) (k : K) (log : list LogEntry) :
  let call := pvcDelete (backend.namespace in_)
                        (backend.getVolumePVCName in_ vol) k in
  let result := backend.DeleteVolume in_ vol k log in
  result.1.2 = call.2
  /\ (forall e, call.1 = Some e -> errors.IsNotFound e = false ->
        result.1.1 = Some (fmt.Errorfw ("failed to delete PVC for volume "
                                          ++ Volume.Name vol ++ ": ") e)
        /\ errors.ReasonForError
             (fmt.Errorfw ("failed to delete PVC for volume "
                             ++ Volume.Name vol ++ ": ") e)
           = errors.ReasonForError e
        /\ result.2 = log)
  /\ ((call.1 = None \/ exists e, call.1 = Some e /\ errors.IsNotFound e = true) ->
      result.1.1 = None
      /\ result.2 = (log ++ [Infof ("deleted PVC "
                        ++ backend.getVolumePVCName in_ vol ++ " for volume "
                        ++ Volume.Name vol)])%list).
Proof.
  cbv zeta. unfold backend.DeleteVolume.
  destruct (pvcDelete _ _ k) as [cerr k1]. simpl.
  split; [by destruct (backend.deleteFailed cerr)|]. split.
  - intros e -> Hother. simpl. by rewrite Hother.
  - intros [->|(e & -> & Hnf)]; simpl; [done|]. by rewrite Hnf.
Qed.

Lemma deleteClaims_sweeps (items : list corev1.PersistentVolumeClaim)
    (k : K) (log : list LogEntry) :
  exists more,
    backend.deleteClaims items k log = (claimsSwept items k, (log ++ more)%list)
    /\ length (List.filter isErrorf more) = failedDeletes items k.
Proof.
  revert k log. induction items as [|pvc rest IH]; intros k log.
  - exists []. by rewrite app_nil_r.
  - change (claimsSwept (pvc :: rest) k)
      with (claimsSwept rest
              (pvcDelete (corev1.Namespace pvc) (corev1.Name pvc) k).2).
    cbn [backend.deleteClaims failedDeletes].
    destruct (pvcDelete (corev1.Namespace pvc) (corev1.Name pvc) k)
      as [err k'].
    cbn [snd].
    destruct (klog_V 3), err as [e|];
      match goal with
      | |- context [backend.deleteClaims rest k' ?l] =>
        destruct (IH k' l) as (more & -> & Hcount)
      end;
      rewrite <- ?app_assoc; eexists; (split; [reflexivity|]);
      rewrite ?List.filter_app, ?length_app, Hcount; reflexivity.
Qed.

(** [DeleteVolumes] hands back a failure of the listing and then deletes
    nothing. Once the claims are listed it succeeds whatever the deletions
    answer: every listed claim gets its delete call, in its own namespace and
    in the order of the list, also after a deletion has failed, and the log
    gains one error line for each deletion that failed. *)
Theorem DeleteVolumes_best_effort
    (in_ : backend.instance) (selector : string) (k : K) (log : list LogEntry) :
  (forall err,
      pvcList (backend.namespace in_) selector k = Err err ->
      backend.DeleteVolumes in_ selector k log = (Some err, k, log))
  /\ (forall items,
        pvcList (backend.namespace in_) selector k = Ok items ->
        exists more,
          backend.DeleteVolumes in_ selector k log =
            (None, claimsSwept items k, (log ++ more)%list)
          /\ length (List.filter isErrorf more) = failedDeletes items k).
Proof.
  unfold backend.DeleteVolumes. split.
  - by intros err ->.
  - intros items ->.
    destruct (deleteClaims_sweeps items k log) as (more & Hloop & Hcount).
    exists more. by rewrite Hloop.
Qed.

(** [addNamedVolumes] panics on a pod without containers as soon as there is
    a named volume. On a pod with containers it appends, for each named
    volume in the order of the visit, a volume to the pod and a mount of that
    volume at the given path to the first container, and leaves the pod's
    other volumes, mounts and containers alone. The volume it adds refers to
    the claim that [CreateVolume] creates for the named volume. *)
Theorem addNamedVolumes_appends_claims
    (in_ : backend.instance) (tainr : Container.t) (pod : Pod.t)
    (namedVolumes : list (string * Volume.t)) :
  (Pod.Containers pod = [] -> namedVolumes <> [] ->
     backend.addNamedVolumes in_ tainr pod namedVolumes = Panics)
  /\ (forall c0 cs,
        Pod.Containers pod = c0 :: cs ->
        backend.addNamedVolumes in_ tainr pod namedVolumes =
          Returns
            {| Pod.Volumes :=
                 (Pod.Volumes pod ++ (namedVolume in_ <$> namedVolumes))%list;
               Pod.Containers :=
                 {| PodContainer.Name := PodContainer.Name c0;
                    PodContainer.Image := PodContainer.Image c0;
                    PodContainer.VolumeMounts :=
                      (PodContainer.VolumeMounts c0
                         ++ (namedMount <$> namedVolumes))%list |} :: cs |})
  /\ (forall entry size,
        PodVolume.Source (namedVolume in_ entry) =
          VolumeSource.PersistentVolumeClaim
            (corev1.Name (backend.claimFor in_ entry.2 size)) false
        /\ VolumeMount.Name (namedMount entry) =
             PodVolume.Name (namedVolume in_ entry)).
Proof.
  split; [|split].
  - intros Hnone Hsome. destruct namedVolumes as [|[mountPath vol] rest];
      [done|]. simpl. by rewrite Hnone.
  - revert pod. induction namedVolumes as [|[mountPath vol] rest IH];
      intros pod c0 cs Hcont.
    + simpl. rewrite !app_nil_r. destruct pod as [vols conts].
      simpl in *. subst conts. by destruct c0.
    + simpl. rewrite Hcont.
      erewrite IH by reflexivity. simpl.
      by rewrite <- !app_assoc.
  - done.
Qed.
End BackendMore.

(** ** The endpoints, on any store *)

Section EndpointsMore.
Context `{GoLib} `{Repo} `{Verbosity} `{Filters} {D K : Type}
        `{model.Database D} `{model.NetworkCreation D} `{ClaimsClient K}.
Variable in_ : backend.instance.

(** A create request for a name the store does not know makes one create
    call to the cluster. When that fails with anything but already-exists,
    the answer is 500 and nothing is saved. Otherwise the volume is saved
    with the requested name and labels, the driver [local] when none was
    requested, and its mount point; the answer is 201 with the saved volume,
    or 500 when saving fails, and the claim stays in the cluster either way.
    Both dialects do so. *)
Theorem VolumeCreate_new_name_saves_after_backend
    (name driver : string) (opts labels : gmap string string)
    (w : World D K) (e0 : error) (size : Quantity) :
  model.GetVolumeByName name (db w) = Err e0 ->
  resource_ParseQuantity (backend.volumeSize in_) = Some size ->
  let vol := {| Volume.ID := ""; Volume.ShortID := ""; Volume.Name := name;
                Volume.Driver := if bool_decide (driver = "") then "local"
                                 else driver;
                Volume.Labels := labels; Volume.Mountpoint := "";
                Volume.Created := 0%Z |} in
  let call := pvcCreate (backend.namespace in_)
                        (backend.claimFor in_ vol size) (cluster w) in
  let saved := model.SaveVolume
                 (Volume.setMountpoint vol
                    ("/var/lib/kubedock/volumes/" ++ name)) (db w) in
  exists dresp lresp w',
    docker.VolumeCreate in_
      (Ok {| docker.Name := name; docker.Driver := driver;
             docker.DriverOpts := opts; docker.Labels := labels |}) w
      = Returns (dresp, w')
    /\ libpod.VolumeCreate in_
         (Ok {| libpod.Name := name; libpod.Driver := driver;
                libpod.Options := opts; libpod.Labels := labels |}) w
         = Returns (lresp, w')
    /\ cluster w' = call.2
    /\ (forall e, backend.createFailed call.1 = Some e ->
          db w' = db w
          /\ statusOf dresp = http.StatusInternalServerError
          /\ statusOf lresp = http.StatusInternalServerError)
    /\ (backend.createFailed call.1 = None ->
          db w' = saved.2
          /\ (saved.1.2 = None ->
                dresp = JSONResponse http.StatusCreated
                          (docker.volumeToJSON saved.1.1)
                /\ lresp = JSONResponse http.StatusCreated
                             (libpod.volumeToLibpodJSON saved.1.1))
          /\ (forall err, saved.1.2 = Some err ->
                dresp = ErrorResponse http.StatusInternalServerError err
                /\ lresp = ErrorResponse http.StatusInternalServerError err)).
Proof.
  intros Hnew Hsize vol call saved.
  unfold docker.VolumeCreate, libpod.VolumeCreate. simpl.
  rewrite Hnew. fold vol.
  unfold Backend_CreateVolume, backend.CreateVolume. rewrite Hsize.
  fold call. destruct call as [cerr k1] eqn:Hcall. simpl.
  destruct (backend.createFailed cerr) as [e|] eqn:Hfailed.
  - do 3 eexists. split; [reflexivity|]. split; [reflexivity|].
    split; [done|]. split; [|done]. by intros e' _.
  - simpl. fold saved. destruct saved as [[vol2 [err|]] d2]; simpl.
    + do 3 eexists. split; [reflexivity|]. split; [reflexivity|].
      split; [done|]. split; [done|]. intros _. split; [done|].
      split; [done|]. by intros err' [= <-].
    + do 3 eexists. split; [reflexivity|]. split; [reflexivity|].
      split; [done|]. split; [done|]. intros _. split; [done|].
      split; [done|]. by intros err'.
Qed.

(** The delete endpoints answer 404 for a name the store does not resolve
    and then call nobody; for a volume the store resolves they make one
    delete call to the cluster for its claim, whatever the store's own
    deletion answers afterwards. *)
Theorem VolumeDelete_calls_backend_once (id : string) (w : World D K) :
  (forall err,
      model.GetVolumeByNameOrID id (db w) = Err err ->
      docker.VolumeDelete in_ id w = (ErrorResponse http.StatusNotFound err, w)
      /\ libpod.VolumeDelete in_ id w = (ErrorResponse http.StatusNotFound err, w))
  /\ (forall vol,
        model.GetVolumeByNameOrID id (db w) = Ok vol ->
        cluster (docker.VolumeDelete in_ id w).2 =
          (pvcDelete (backend.namespace in_)
                     (backend.getVolumePVCName in_ vol) (cluster w)).2
        /\ libpod.VolumeDelete in_ id w = docker.VolumeDelete in_ id w).
Proof.
  split.
  - intros err Hget. unfold docker.VolumeDelete, libpod.VolumeDelete.
    by rewrite Hget.
  - intros vol Hget. split; [|done]. unfold docker.VolumeDelete. rewrite Hget.
    pose proof (Backend_DeleteVolume_world in_ vol w) as [_ Hk].
    destruct (Backend_DeleteVolume in_ vol w) as [berr w1]. simpl in Hk.
    destruct berr; destruct (model.DeleteVolume vol _) as [[?|] ?]; done.
Qed.

Lemma logUnsupportedFilter_world (err : option error) (w : World D K) :
  db (logUnsupportedFilter err w) = db w
  /\ cluster (logUnsupportedFilter err w) = cluster w.
Proof.
  unfold logUnsupportedFilter. destruct err; [|done]. by destruct (klog_V 5).
Qed.

Lemma docker_listVolumes_filter (filtr : Filter) (vols : list Volume.t)
    (res : list JSON) :
  docker.listVolumes filtr vols res =
    (res ++ (docker.volumeToJSON
               <$> List.filter (filter_MatchVolume filtr) vols))%list.
Proof.
  revert res. induction vols as [|vol rest IH]; intros res; simpl.
  - by rewrite app_nil_r.
  - rewrite IH. destruct (filter_MatchVolume filtr vol); [|done].
    by rewrite <- app_assoc.
Qed.

Lemma libpod_listVolumes_filter (filtr : Filter) (vols : list Volume.t)
    (res : list JSON) :
  libpod.listVolumes filtr vols res =
    (res ++ (libpod.volumeToLibpodJSON
               <$> List.filter (filter_MatchVolume filtr) vols))%list.
Proof.
  revert res. induction vols as [|vol rest IH]; intros res; simpl.
  - by rewrite app_nil_r.
  - rewrite IH. destruct (filter_MatchVolume filtr vol); [|done].
    by rewrite <- app_assoc.
Qed.

Lemma libpod_listNetworks_filter (filtr : Filter) (netws : list Network.t)
    (res : list JSON) :
  libpod.listNetworks filtr netws res =
    (res ++ (libpod.networkToLibpodJSON
               <$> List.filter (filter_MatchNetwork filtr) netws))%list.
Proof.
  revert res. induction netws as [|netw rest IH]; intros res; simpl.
  - by rewrite app_nil_r.
  - rewrite IH. destruct (filter_MatchNetwork filtr netw); [|done].
    by rewrite <- app_assoc.
Qed.

(** The list endpoints only read: they leave the store and the cluster as
    they are. When the store lists its entities they answer 200, also when
    [filter.New] reports an error, with the entities that the filter set it
    returned matches, each once and in the order of the store; when the store
    fails to list, they answer 500 with its error. *)
Theorem list_endpoints_filter_in_store_order (filters : string) (w : World D K) :
  let filtr := (filter_New filters).1 in
  (forall vols,
      model.GetVolumes (db w) = Ok vols ->
      (docker.VolumeList filters w).1 =
        JSONResponse http.StatusOK
          (JObject [("Volumes",
                     JArray (docker.volumeToJSON
                               <$> List.filter (filter_MatchVolume filtr) vols));
                    ("Warnings", JStrings [])])
      /\ (libpod.VolumeList filters w).1 =
           JSONResponse http.StatusOK
             (JArray (libpod.volumeToLibpodJSON
                        <$> List.filter (filter_MatchVolume filtr) vols)))
  /\ (forall netws,
        model.GetNetworks (db w) = Ok netws ->
        (libpod.NetworkList filters w).1 =
          JSONResponse http.StatusOK
            (JArray (libpod.networkToLibpodJSON
                       <$> List.filter (filter_MatchNetwork filtr) netws)))
  /\ (forall err,
        model.GetVolumes (db w) = Err err ->
        docker.VolumeList filters w
          = (ErrorResponse http.StatusInternalServerError err, w)
        /\ libpod.VolumeList filters w
             = (ErrorResponse http.StatusInternalServerError err, w))
  /\ (forall err,
        model.GetNetworks (db w) = Err err ->
        libpod.NetworkList filters w
          = (ErrorResponse http.StatusInternalServerError err, w))
  /\ db (docker.VolumeList filters w).2 = db w
  /\ cluster (docker.VolumeList filters w).2 = cluster w
  /\ db (libpod.VolumeList filters w).2 = db w
  /\ cluster (libpod.VolumeList filters w).2 = cluster w
  /\ db (libpod.NetworkList filters w).2 = db w
  /\ cluster (libpod.NetworkList filters w).2 = cluster w.
Proof.
  cbv zeta.
  unfold docker.VolumeList, libpod.VolumeList, libpod.NetworkList.
  destruct (filter_New filters) as [filtr ferr]. simpl.
  pose proof (logUnsupportedFilter_world ferr w) as [Hdb Hk].
  split; [|split; [|split; [|split]]].
  - intros vols ->. simpl.
    by rewrite docker_listVolumes_filter, libpod_listVolumes_filter.
  - intros netws ->. simpl. by rewrite libpod_listNetworks_filter.
  - by intros err ->.
  - by intros err ->.
  - destruct (model.GetVolumes (db w)), (model.GetNetworks (db w)); done.
Qed.

(** [VolumeExists] answers 204 exactly when the inspect endpoints answer 200,
    which is when the store resolves the name or ID; otherwise all three
    answer 404 with the store's error. The same holds of [NetworkExists] and
    [NetworkInfo]. None of them changes anything. *)
Theorem exists_agrees_with_inspect (id : string) (w : World D K) :
  (forall vol,
      model.GetVolumeByNameOrID id (db w) = Ok vol ->
      libpod.VolumeExists id w = (HeaderResponse http.StatusNoContent, w)
      /\ libpod.VolumeInfo id w =
           (JSONResponse http.StatusOK (libpod.volumeToLibpodJSON vol), w)
      /\ docker.VolumeInfo id w =
           (JSONResponse http.StatusOK (docker.volumeToJSON vol), w))
  /\ (forall err,
        model.GetVolumeByNameOrID id (db w) = Err err ->
        libpod.VolumeExists id w = (ErrorResponse http.StatusNotFound err, w)
        /\ libpod.VolumeInfo id w = (ErrorResponse http.StatusNotFound err, w)
        /\ docker.VolumeInfo id w = (ErrorResponse http.StatusNotFound err, w))
  /\ (forall netw,
        model.GetNetworkByNameOrID id (db w) = Ok netw ->
        libpod.NetworkExists id w = (HeaderResponse http.StatusNoContent, w)
        /\ libpod.NetworkInfo id w =
             (JSONResponse http.StatusOK (libpod.networkToLibpodJSON netw), w))
  /\ (forall err,
        model.GetNetworkByNameOrID id (db w) = Err err ->
        libpod.NetworkExists id w = (ErrorResponse http.StatusNotFound err, w)
        /\ libpod.NetworkInfo id w = (ErrorResponse http.StatusNotFound err, w)).
Proof.
  unfold libpod.VolumeExists, libpod.VolumeInfo, docker.VolumeInfo,
    libpod.NetworkExists, libpod.NetworkInfo.
  split; [|split; [|split]]; intros ? ->; done.
Qed.

(** [NetworkCreate] for a name the store knows answers 200 with the stored
    network and changes nothing. For a new name it saves a network with the
    requested name and labels and no ID, whatever driver and options were
    requested, and answers 200 with the network as saved, or 500 when saving
    fails. A body that does not decode is answered 500. *)
Theorem NetworkCreate_by_name
    (req : libpod.NetworkCreateRequest.t) (w : World D K) :
  (forall existing,
      model.GetNetworkByName (libpod.NetworkCreateRequest.Name req) (db w)
        = Ok existing ->
      libpod.NetworkCreate (Ok req) w =
        (JSONResponse http.StatusOK (libpod.networkToLibpodJSON existing), w))
  /\ (forall e0,
        model.GetNetworkByName (libpod.NetworkCreateRequest.Name req) (db w)
          = Err e0 ->
        let saved :=
          model.SaveNetwork
            {| Network.ID := "";
               Network.Name := libpod.NetworkCreateRequest.Name req;
               Network.Labels := libpod.NetworkCreateRequest.Labels req;
               Network.Created := 0%Z |} (db w) in
        (libpod.NetworkCreate (Ok req) w).2 = setDB saved.2 w
        /\ (saved.1.2 = None ->
              (libpod.NetworkCreate (Ok req) w).1 =
                JSONResponse http.StatusOK
                  (libpod.networkToLibpodJSON saved.1.1))
        /\ (forall err, saved.1.2 = Some err ->
              (libpod.NetworkCreate (Ok req) w).1 =
                ErrorResponse http.StatusInternalServerError err))
  /\ (forall err,
        libpod.NetworkCreate (Err err) w =
          (ErrorResponse http.StatusInternalServerError err, w)).
Proof.
  unfold libpod.NetworkCreate. split; [|split].
  - by intros existing ->.
  - intros e0 ->. cbv zeta.
    destruct (model.SaveNetwork _ (db w)) as [[netw1 [err|]] d1]; simpl.
    + split; [done|]. split; [done|]. by intros err' [= <-].
    + split; [done|]. split; [done|]. done.
  - done.
Qed.

(** Disconnecting from a network that is not predefined: a container that
    is not a member is answered 404 and nothing is saved; a member is saved
    without that membership and with its other memberships and its aliases
    as they were, and the answer is 200, or 500 when saving fails. *)
Theorem NetworkDisconnect_removes_membership_only
    (id : string) (req : libpod.NetworkDisconnectRequest)
    (netw : Network.t) (tainr : Container.t) (w : World D K) :
  model.GetNetworkByNameOrID id (db w) = Ok netw ->
  model.GetContainerByNameOrID (libpod.DisconnectContainer req) (db w)
    = Ok tainr ->
  IsPredefined netw = false ->
  (Network.ID netw ∉ Container.Networks tainr ->
     statusOf (libpod.NetworkDisconnect id (Ok req) w).1 = http.StatusNotFound
     /\ (libpod.NetworkDisconnect id (Ok req) w).2 = w)
  /\ (Network.ID netw ∈ Container.Networks tainr ->
      let stored :=
        {| Container.ID := Container.ID tainr;
           Container.Name := Container.Name tainr;
           Container.Networks := Container.Networks tainr ∖ {[ Network.ID netw ]};
           Container.NetworkAliases := Container.NetworkAliases tainr |} in
      let saved := model.SaveContainer stored (db w) in
      (libpod.NetworkDisconnect id (Ok req) w).2 = setDB saved.2 w
      /\ (saved.1 = None ->
            (libpod.NetworkDisconnect id (Ok req) w).1
              = HeaderResponse http.StatusOK)
      /\ (forall err, saved.1 = Some err ->
            (libpod.NetworkDisconnect id (Ok req) w).1
              = ErrorResponse http.StatusInternalServerError err)).
Proof.
  intros Hnet Htainr Hpre. unfold libpod.NetworkDisconnect.
  rewrite Hnet, Htainr, Hpre. unfold Container.DisconnectNetwork. split.
  - intros Hnot. by rewrite bool_decide_eq_false_2.
  - intros Hmem. rewrite bool_decide_eq_true_2 by done. cbv zeta.
    unfold Container.setNetworks.
    destruct (model.SaveContainer _ (db w)) as [[err|] d1]; simpl.
    + split; [done|]. split; [done|]. by intros err' [= <-].
    + done.
Qed.

(** When the store fails to list the containers, [NetworkDelete] takes a
    network that is not predefined for unused: it logs the failure and
    deletes the network, so the answer is 200 when the deletion succeeds. *)
Theorem NetworkDelete_deletes_when_containers_unlisted
    (id : string) (netw : Network.t) (err : error) (w : World D K) :
  model.GetNetworkByNameOrID id (db w) = Ok netw ->
  IsPredefined netw = false ->
  model.GetContainers (db w) = Err err ->
  let deleted := model.DeleteNetwork netw (db w) in
  db (libpod.NetworkDelete id w).2 = deleted.2
  /\ klog (libpod.NetworkDelete id w).2 =
       (klog w ++ [Errorf ("error retrieving containers: " ++ Error err)])%list
  /\ (deleted.1 = None ->
        (libpod.NetworkDelete id w).1 =
          JSONResponse http.StatusOK
            (JArray [libpod.networkToLibpodJSON netw])).
Proof.
  intros Hnet Hpre Hlist. cbv zeta. unfold libpod.NetworkDelete.
  rewrite Hnet, Hpre. unfold libpod.getContainersInNetwork. rewrite Hlist.
  rewrite bool_decide_eq_false_2 by (rewrite map_size_empty; auto).
  simpl. destruct (model.DeleteNetwork netw (db w)) as [[e|] d2]; done.
Qed.

Lemma addAlias_fold_elem (aliases l : list string) (done : gmap string string) :
  (forall x, is_Some (done !! x) <-> x ∈ l) ->
  (forall x, x ∈ l -> x ∈ (foldl libpod.addAlias (l, done) aliases).1)
  /\ (forall a, a ∈ aliases ->
        strings.ToLower a ∈ (foldl libpod.addAlias (l, done) aliases).1).
Proof.
  revert l done. induction aliases as [|a rest IH]; intros l done Hdone.
  - split; [done|]. intros a Ha. by apply elem_of_nil in Ha.
  - change (foldl libpod.addAlias (l, done) (a :: rest))
      with (foldl libpod.addAlias (libpod.addAlias (l, done) a) rest).
    unfold libpod.addAlias at 2 4. cbn [fst snd].
    destruct (done !! strings.ToLower a) as [seen|] eqn:Hseen.
    + destruct (IH l done Hdone) as [IHkeep IHall]. split; [done|].
      intros b [->|Hb]%elem_of_cons; [|by apply IHall].
      apply IHkeep, Hdone. eauto.
    + destruct (IH (l ++ [strings.ToLower a])%list
                   (<[strings.ToLower a := strings.ToLower a]> done))
        as [IHkeep IHall].
      { intros x. rewrite lookup_insert_is_Some', elem_of_app, Hdone.
        rewrite list_elem_of_singleton.
        split; [intros [->|?]|intros [? | ->]]; auto. }
      split.
      * intros x Hx. apply IHkeep, elem_of_app. by left.
      * intros b [->|Hb]%elem_of_cons; [|by apply IHall].
        apply IHkeep, elem_of_app. right. by apply list_elem_of_singleton.
Qed.

Lemma addAlias_fold_fixed (aliases l : list string) (done : gmap string string) :
  (forall x, is_Some (done !! x) <-> x ∈ l) ->
  (forall a, a ∈ aliases -> strings.ToLower a ∈ l) ->
  foldl libpod.addAlias (l, done) aliases = (l, done).
Proof.
  intros Hdone. induction aliases as [|a rest IH]; intros Hall; [done|].
  change (foldl libpod.addAlias (l, done) (a :: rest))
    with (foldl libpod.addAlias (libpod.addAlias (l, done) a) rest).
  assert (Hseen : is_Some (done !! strings.ToLower a))
    by (apply Hdone, Hall; by left).
  destruct Hseen as [seen Hseen].
  unfold libpod.addAlias at 2. cbn [fst snd]. rewrite Hseen.
  apply IH. intros b Hb. apply Hall. by right.
Qed.

(** Connecting again with the same aliases adds nothing: the container that
    a connect stores comes out of the same connect unchanged, in its alias
    list as in its memberships, whatever aliases it had before. *)
Theorem NetworkConnect_again_changes_nothing (tainr : Container.t) (id : string)
    (aliases : list string) :
  let connected :=
    Container.setNetworkAliases (Container.ConnectNetwork tainr id)
      (libpod.mergeAliases (Container.ConnectNetwork tainr id) aliases) in
  Container.setNetworkAliases (Container.ConnectNetwork connected id)
    (libpod.mergeAliases (Container.ConnectNetwork connected id) aliases)
  = connected.
Proof.
  cbv zeta. unfold Container.setNetworkAliases, Container.ConnectNetwork,
    Container.setNetworks. simpl. f_equal.
  - apply set_eq. intros x. rewrite !elem_of_union. tauto.
  - unfold libpod.mergeAliases. simpl.
    rewrite addAlias_fold_fixed; [done|apply aliasesDone_elem|].
    apply addAlias_fold_elem, aliasesDone_elem.
Qed.
End EndpointsMore.

(** The two presentations of a volume carry the same fields, the Docker one
    with a null [UsageData] besides; and a volume without a mount point is
    presented with the mount point that [CreateVolume] gives it. *)
Theorem volume_presentations_agree `{GoLib} (vol : Volume.t) :
  (exists fields,
      libpod.volumeToLibpodJSON vol = JObject fields
      /\ docker.volumeToJSON vol =
           JObject (fields ++ [("UsageData", JNull)])%list)
  /\ (Volume.Mountpoint vol = "" ->
      docker.volumeToJSON vol =
        docker.volumeToJSON
          (Volume.setMountpoint vol
             ("/var/lib/kubedock/volumes/" ++ Volume.Name vol))
      /\ libpod.volumeToLibpodJSON vol =
           libpod.volumeToLibpodJSON
             (Volume.setMountpoint vol
                ("/var/lib/kubedock/volumes/" ++ Volume.Name vol))).
Proof.
  split.
  - eexists. split; reflexivity.
  - intros Hnone. unfold docker.volumeToJSON, libpod.volumeToLibpodJSON.
    simpl. rewrite Hnone. simpl. done.
Qed.

(** ** The endpoints, on the entity store *)

Section StoreLookups.
Context {A : Type} (getID getName : A -> string).

Lemma find_none_elem (p : A -> bool) (l : list A) :
  (forall x, x ∈ l -> p x = false) -> List.find p l = None.
Proof.
  induction l as [|a l IH]; intros Hall; [done|]. simpl.
  rewrite (Hall a) by (by left). apply IH. intros x Hx. apply Hall. by right.
Qed.

Lemma byName_Err (name : string) (l : list A) (e : error) :
  store.byName getName name l = Err e ->
  forall x, x ∈ l -> getName x ≠ name.
Proof.
  unfold store.byName.
  destruct (List.find _ l) as [found|] eqn:Hfind; [done|]. intros _ x Hx Hname.
  apply list_elem_of_In in Hx.
  pose proof (List.find_none _ _ Hfind _ Hx) as Hp. simpl in Hp.
  by rewrite bool_decide_eq_true_2 in Hp.
Qed.

Lemma find_replaced (v : A) (l : list A) :
  (forall x, x ∈ l -> getName x ≠ getName v) ->
  List.existsb (fun x => bool_decide (getID x = getID v)) l = true ->
  List.find (fun e => bool_decide (getName e = getName v))
    ((fun x => if bool_decide (getID x = getID v) then v else x) <$> l)
  = Some v.
Proof.
  induction l as [|a l IH]; intros Hfree Hex; [done|].
  rewrite fmap_cons. cbn [List.find].
  destruct (bool_decide (getID a = getID v)) eqn:Ha.
  - by rewrite bool_decide_eq_true_2.
  - rewrite (bool_decide_eq_false_2 (getName a = getName v))
      by (apply Hfree; by left).
    apply IH.
    + intros x Hx. apply Hfree. by right.
    + cbn [List.existsb] in Hex. by rewrite Ha in Hex.
Qed.

Lemma find_appended (v : A) (l : list A) :
  (forall x, x ∈ l -> getName x ≠ getName v) ->
  List.find (fun e => bool_decide (getName e = getName v)) (l ++ [v]) = Some v.
Proof.
  induction l as [|a l IH]; intros Hfree.
  - simpl. by rewrite bool_decide_eq_true_2.
  - simpl. rewrite (bool_decide_eq_false_2 (getName a = getName v))
      by (apply Hfree; by left).
    apply IH. intros x Hx. apply Hfree. by right.
Qed.

(** An entity saved under a name that was free is what the name resolves to. *)
Lemma byName_upsert_new (v : A) (l : list A) :
  (forall x, x ∈ l -> getName x ≠ getName v) ->
  store.byName getName (getName v) (store.upsert getID v l) = Ok v.
Proof.
  intros Hfree. unfold store.byName, store.upsert.
  destruct (List.existsb _ l) eqn:Hex.
  - by rewrite find_replaced.
  - by rewrite find_appended.
Qed.

(** Once the entities that answer to [id] are removed, [id] resolves to
    nothing. *)
Lemma byNameOrID_removed (id : string) (l : list A) (P : A -> Prop)
    `{!forall x, Decision (P x)} :
  (forall x, x ∈ l -> getID x = id \/ getName x = id -> ~ P x) ->
  store.byNameOrID getID getName id (filter P l) = Err store.errNotFound.
Proof.
  intros Hgone. unfold store.byNameOrID, store.byName.
  rewrite !find_none_elem; [done| |].
  - intros x [HP Hx]%list_elem_of_filter. apply bool_decide_eq_false_2.
    intros Hname. by apply (Hgone x Hx (or_intror Hname)).
  - intros x [HP Hx]%list_elem_of_filter. apply bool_decide_eq_false_2.
    intros Hid. by apply (Hgone x Hx (or_introl Hid)).
Qed.
End StoreLookups.

Section EndpointsOnStore.
Context `{GoLib} `{Repo} `{Stamp} {K : Type} `{ClaimsClient K}.
Variable in_ : backend.instance.

Lemma Backend_CreateVolume_returns {D : Type} (vol vol1 : Volume.t)
    (err : option error) (w w1 : World D K) :
  Backend_CreateVolume in_ vol w = Returns (vol1, err, w1) ->
  db w1 = db w /\ Volume.Name vol1 = Volume.Name vol.
Proof.
  unfold Backend_CreateVolume, backend.CreateVolume.
  destruct (resource_ParseQuantity _); [|done].
  destruct (pvcCreate _ _ (cluster w)) as [cerr k1].
  destruct (backend.createFailed cerr); by intros [= <- <- <-].
Qed.

Lemma stampVolume_name (s : store.t) (v : Volume.t) :
  Volume.Name (store.stampVolume s v).1 = Volume.Name v.
Proof. unfold store.stampVolume. by case_bool_decide. Qed.

(** What the store resolves a name to after a volume of that name, which
    was free, has been saved. *)
Lemma store_SaveVolume_resolves (s : store.t) (v : Volume.t) (e : error) :
  model.GetVolumeByName (Volume.Name v) s = Err e ->
  model.GetVolumeByName (Volume.Name v) (store.SaveVolume v s).2
    = Ok (store.SaveVolume v s).1.1
  /\ (store.SaveVolume v s).1.2 = None.
Proof.
  intros Hfree. pose proof (byName_Err Volume.Name _ _ _ Hfree) as Hnone.
  unfold store.SaveVolume. pose proof (stampVolume_name s v) as Hname.
  destruct (store.stampVolume s v) as [v' n]. simpl in *.
  split; [|done]. rewrite <- Hname.
  apply byName_upsert_new. by rewrite Hname.
Qed.

(** On the entity store, a create request that was answered 201 is answered
    in the same way when it is sent again, and the second request changes
    neither the store nor the cluster nor the log. Both dialects do so. *)
Theorem VolumeCreate_again_same_answer
    (s : store.t) (k : K) (log : list LogEntry)
    (dreq : docker.VolumeCreateRequest) (lreq : libpod.VolumeCreateRequest) :
  (forall resp w1,
      docker.VolumeCreate in_ (Ok dreq) (Build_World s k log)
        = Returns (resp, w1) ->
      statusOf resp = http.StatusCreated ->
      docker.VolumeCreate in_ (Ok dreq) w1 = Returns (resp, w1))
  /\ (forall resp w1,
        libpod.VolumeCreate in_ (Ok lreq) (Build_World s k log)
          = Returns (resp, w1) ->
        statusOf resp = http.StatusCreated ->
        libpod.VolumeCreate in_ (Ok lreq) w1 = Returns (resp, w1)).
Proof.
  split; intros resp w1.
  - unfold docker.VolumeCreate at 1. cbn [db].
    destruct (model.GetVolumeByName (docker.Name dreq) s) as [existing|e0]
      eqn:Hget.
    { intros [= <- <-] _. by apply docker_VolumeCreate_existing. }
    destruct (Backend_CreateVolume in_ _ _) as [[[vol1 [err|]] w1']|] eqn:Hb;
      [by intros [= <- <-]| |done].
    apply Backend_CreateVolume_returns in Hb as [Hdb Hname].
    simpl in Hname. rewrite Hdb. cbn [db].
    rewrite <- Hname in Hget.
    destruct (store_SaveVolume_resolves s vol1 e0 Hget) as [Hfound Hsaved].
    change (model.SaveVolume vol1 s) with (store.SaveVolume vol1 s).
    destruct (store.SaveVolume vol1 s) as [[vol2 serr] s2].
    cbn [fst snd] in Hfound, Hsaved. subst serr. intros [= <- <-] _.
    apply docker_VolumeCreate_existing. cbn [db setDB]. by rewrite <- Hname.
  - unfold libpod.VolumeCreate at 1. cbn [db].
    destruct (model.GetVolumeByName (libpod.Name lreq) s) as [existing|e0]
      eqn:Hget.
    { intros [= <- <-] _. by apply libpod_VolumeCreate_existing. }
    destruct (Backend_CreateVolume in_ _ _) as [[[vol1 [err|]] w1']|] eqn:Hb;
      [by intros [= <- <-]| |done].
    apply Backend_CreateVolume_returns in Hb as [Hdb Hname].
    simpl in Hname. rewrite Hdb. cbn [db].
    rewrite <- Hname in Hget.
    destruct (store_SaveVolume_resolves s vol1 e0 Hget) as [Hfound Hsaved].
    change (model.SaveVolume vol1 s) with (store.SaveVolume vol1 s).
    destruct (store.SaveVolume vol1 s) as [[vol2 serr] s2].
    cbn [fst snd] in Hfound, Hsaved. subst serr. intros [= <- <-] _.
    apply libpod_VolumeCreate_existing. cbn [db setDB]. by rewrite <- Hname.
Qed.

(** On the entity store, deleting a volume that the store resolves is
    answered 204 and removes it; when no other volume answers to the same
    name or ID, that name or ID is then unknown: the exists and inspect
    endpoints answer 404 and so does a second delete, which reaches the
    cluster no more. *)
Theorem VolumeDelete_then_unknown
    (s : store.t) (k : K) (log : list LogEntry) (id : string) (vol : Volume.t) :
  model.GetVolumeByNameOrID id s = Ok vol ->
  (forall x, x ∈ store.volumes s ->
             Volume.ID x = id \/ Volume.Name x = id ->
             Volume.ID x = Volume.ID vol) ->
  let after := docker.VolumeDelete in_ id (Build_World s k log) in
  after.1 = HeaderResponse http.StatusNoContent
  /\ store.volumes (db after.2) =
       filter (fun x => Volume.ID x ≠ Volume.ID vol) (store.volumes s)
  /\ libpod.VolumeExists id after.2 =
       (ErrorResponse http.StatusNotFound store.errNotFound, after.2)
  /\ docker.VolumeInfo id after.2 =
       (ErrorResponse http.StatusNotFound store.errNotFound, after.2)
  /\ docker.VolumeDelete in_ id after.2 =
       (ErrorResponse http.StatusNotFound store.errNotFound, after.2).
Proof.
  intros Hget Honly after.
  pose proof (byNameOrID_Ok _ _ _ _ _ Hget) as Hin.
  assert (Hafter : after.1 = HeaderResponse http.StatusNoContent
            /\ db after.2 =
                 store.setVolumes s
                   (filter (fun x => Volume.ID x ≠ Volume.ID vol)
                           (store.volumes s)) (store.generated s)).
  { subst after. unfold docker.VolumeDelete. cbn [db]. rewrite Hget.
    pose proof (Backend_DeleteVolume_world in_ vol (Build_World s k log))
      as [Hdb _].
    destruct (Backend_DeleteVolume in_ vol _) as [berr w1]. cbn [snd db] in Hdb.
    set (w2 := match berr with Some err => _ | None => w1 end).
    assert (Hdb2 : db w2 = s) by (subst w2; by destruct berr).
    rewrite Hdb2.
    change (model.DeleteVolume vol s) with (store.DeleteVolume vol s).
    unfold store.DeleteVolume.
    by rewrite (remove_present Volume.ID vol _ Hin). }
  destruct Hafter as [Hresp Hdb].
  assert (Hgone : model.GetVolumeByNameOrID id (db after.2)
                  = Err store.errNotFound).
  { rewrite Hdb. apply (byNameOrID_removed Volume.ID Volume.Name).
    intros x Hx Hid Hne. apply Hne. by apply Honly. }
  split; [done|]. split; [by rewrite Hdb|].
  unfold libpod.VolumeExists, docker.VolumeInfo, docker.VolumeDelete.
  by rewrite Hgone.
Qed.

Lemma stampNetwork_name (s : store.t) (n : Network.t) :
  Network.Name (store.stampNetwork s n).1 = Network.Name n.
Proof. unfold store.stampNetwork. by case_bool_decide. Qed.

(** On the entity store, [NetworkCreate] is answered 200, and sending the
    request again gives the same answer and changes nothing: one network of
    that name is kept. *)
Theorem NetworkCreate_again_same_answer
    (s : store.t) (k : K) (log : list LogEntry)
    (req : libpod.NetworkCreateRequest.t) :
  let first := libpod.NetworkCreate (Ok req) (Build_World s k log) in
  statusOf first.1 = http.StatusOK
  /\ libpod.NetworkCreate (Ok req) first.2 = first.
Proof.
  cbv zeta.
  assert (Hfirst : exists n1 s',
            libpod.NetworkCreate (Ok req) (Build_World s k log) =
              (JSONResponse http.StatusOK (libpod.networkToLibpodJSON n1),
               Build_World s' k log)
            /\ model.GetNetworkByName (libpod.NetworkCreateRequest.Name req) s'
                 = Ok n1).
  { unfold libpod.NetworkCreate. cbn [db].
    destruct (model.GetNetworkByName (libpod.NetworkCreateRequest.Name req) s)
      as [existing|e0] eqn:Hget.
    { by exists existing, s. }
    pose proof (byName_Err Network.Name _ _ _ Hget) as Hfree.
    set (netw := {| Network.ID := "";
                    Network.Name := libpod.NetworkCreateRequest.Name req;
                    Network.Labels := libpod.NetworkCreateRequest.Labels req;
                    Network.Created := 0%Z |}).
    change (model.SaveNetwork netw s) with (store.SaveNetwork netw s).
    unfold store.SaveNetwork.
    pose proof (stampNetwork_name s netw) as Hname.
    destruct (store.stampNetwork s netw) as [netw1 g]. cbn [fst] in Hname.
    eexists netw1, _. split; [reflexivity|].
    change (store.byName Network.Name (Network.Name netw)
              (store.upsert Network.ID netw1 (store.networks s)) = Ok netw1).
    rewrite <- Hname. apply byName_upsert_new. by rewrite Hname. }
  destruct Hfirst as (n1 & s' & -> & Hfound). split; [done|].
  unfold libpod.NetworkCreate. cbn [snd db]. by rewrite Hfound.
Qed.
End EndpointsOnStore.

(** ** The sweeps, on any store *)

Section SweepsOnAnyStore.
Context `{GoLib} `{Repo} `{Stamp} {D K : Type}
        `{model.Database D} `{ClaimsClient K}.
Variable in_ : backend.instance.





(** While the containers are listed, the loop of [NetworkPrune] asks the
    store to delete the networks that are not predefined and have no
    container attached, in order, and no other; it stops at the first
    deletion that fails. *)
Lemma pruneNetworks_any_store (tainrs : list Container.t)
    (netws : list Network.t) (pruned : list JSON) (w : World D K) :
  (forall d netw, model.GetContainers d = Ok tainrs ->
                  model.GetContainers (model.DeleteNetwork netw d).2
                    = Ok tainrs) ->
  model.GetContainers (db w) = Ok tainrs ->
  exists done rest,
    filter (prunable tainrs) netws = (done ++ rest)%list
    /\ (libpod.pruneNetworks netws pruned w).2
         = setDB (networksDeleted done (db w)) w
    /\ ((rest = []
         /\ (libpod.pruneNetworks netws pruned w).1
              = Ok (pruned ++ (libpod.networkToLibpodJSON <$> done))%list)
        \/ (exists done' netw err,
              done = (done' ++ [netw])%list
              /\ (model.DeleteNetwork netw (networksDeleted done' (db w))).1
                   = Some err
              /\ (libpod.pruneNetworks netws pruned w).1 = Err err)).
Proof.
  intros Hstable. revert pruned w.
  induction netws as [|n rest IH]; intros pruned w Hlist.
  { exists [], []. split; [done|]. split; [by destruct w|].
    left. by rewrite app_nil_r. }
  assert (Hskip : ~ prunable tainrs n ->
            libpod.pruneNetworks rest pruned w
              = libpod.pruneNetworks (n :: rest) pruned w ->
            exists done rest0,
              filter (prunable tainrs) (n :: rest) = (done ++ rest0)%list
              /\ (libpod.pruneNetworks (n :: rest) pruned w).2
                   = setDB (networksDeleted done (db w)) w
              /\ ((rest0 = []
                   /\ (libpod.pruneNetworks (n :: rest) pruned w).1
                        = Ok (pruned
                                ++ (libpod.networkToLibpodJSON <$> done))%list)
                  \/ (exists done' netw err,
                        done = (done' ++ [netw])%list
                        /\ (model.DeleteNetwork netw
                              (networksDeleted done' (db w))).1 = Some err
                        /\ (libpod.pruneNetworks (n :: rest) pruned w).1
                             = Err err))).
  { intros Hno <-. rewrite filter_cons_False by done. by apply IH. }
  destruct (IsPredefined n) eqn:Hpre.
  { apply Hskip; [intros [Hp _]; congruence|]. simpl. by rewrite Hpre. }
  pose proof (members_attached tainrs n) as Hmem.
  destruct (decide (attached n tainrs)) as [Hatt|Hfree].
  { apply Hskip; [by intros [_ Hp]|]. simpl. rewrite Hpre.
    rewrite (getContainersInNetwork_listed tainrs) by done.
    rewrite bool_decide_eq_true_2; [done|]. by apply Hmem. }
  assert (Hprunable : prunable tainrs n) by done.
  rewrite filter_cons_True by done.
  simpl libpod.pruneNetworks. rewrite Hpre.
  rewrite (getContainersInNetwork_listed tainrs) by done.
  rewrite bool_decide_eq_false_2 by (intros Hsize; by apply Hfree, Hmem).
  pose proof (Hstable (db w) n Hlist) as Hlist'.
  destruct (model.DeleteNetwork n (db w)) as [[err|] d2] eqn:Hdel.
  - exists [n], (filter (prunable tainrs) rest). split; [done|].
    split; [unfold networksDeleted; simpl; by rewrite Hdel|].
    right. exists [], n, err. simpl. by rewrite Hdel.
  - cbn [snd] in Hlist'.
    destruct (IH (pruned ++ [libpod.networkToLibpodJSON n])%list (setDB d2 w)
                Hlist') as (done & rest0 & Hfilter & Hworld & Hresult).
    exists (n :: done), rest0. split; [by rewrite Hfilter|].
    split.
    { rewrite Hworld. unfold networksDeleted. simpl. by rewrite Hdel. }
    destruct Hresult as [[-> Hok]|(done' & netw & err & -> & Hfail & Herr)].
    + left. split; [done|]. rewrite Hok, fmap_cons. by rewrite <- app_assoc.
    + right. exists (n :: done'), netw, err. split; [done|].
      split; [|done]. unfold networksDeleted in *. simpl. by rewrite Hdel.
Qed.

(** C4, as the code has it, for a network the store resolves and while the
    store lists the containers. Deleting a predefined network is refused
    with 403 Forbidden, attached containers or not. Deleting a network that
    is not predefined and has a container attached is refused with 409
    Conflict, and nothing changes. Otherwise the store is asked to delete
    the network, and the answer is 200 when it does and 404 with its error
    when it does not: the delete succeeds if and only if the network is not
    predefined, no container is attached and the store's deletion succeeds.
    Pruning, while deleting a network leaves the listing of the containers
    as it is, asks the store to delete the networks that are not predefined
    and have no container attached, in the order of the listing, and no
    others; it answers 200 with those networks, unless one of the deletions
    fails, where it stops and answers 404. On the entity store the deletion
    of a resolved network does not fail and, the network IDs being
    distinct, pruning answers 200 and leaves exactly the predefined and the
    attached networks. *)
Theorem NetworkDelete_only_unused_networks
    (id : string) (netw : Network.t) (tainrs : list Container.t)
    (w : World D K) :
  model.GetNetworkByNameOrID id (db w) = Ok netw ->
  model.GetContainers (db w) = Ok tainrs ->
  (IsPredefined netw = true ->
     libpod.NetworkDelete id w =
       (ErrorResponse http.StatusForbidden
          (fmt.Errorf (Network.Name netw
             ++ " is a pre-defined network and cannot be removed")), w))
  /\ (IsPredefined netw = false -> attached netw tainrs ->
        libpod.NetworkDelete id w =
          (ErrorResponse http.StatusConflict
             (fmt.Errorf "cannot delete network, containers attached"), w))
  /\ (IsPredefined netw = false -> ~ attached netw tainrs ->
        (libpod.NetworkDelete id w).2
          = setDB (model.DeleteNetwork netw (db w)).2 w
        /\ ((model.DeleteNetwork netw (db w)).1 = None ->
              (libpod.NetworkDelete id w).1 =
                JSONResponse http.StatusOK
                  (JArray [libpod.networkToLibpodJSON netw]))
        /\ (forall err,
              (model.DeleteNetwork netw (db w)).1 = Some err ->
              (libpod.NetworkDelete id w).1 =
                ErrorResponse http.StatusNotFound err))
  /\ (statusOf (libpod.NetworkDelete id w).1 = http.StatusOK
        <-> IsPredefined netw = false /\ ~ attached netw tainrs
            /\ (model.DeleteNetwork netw (db w)).1 = None)
  /\ (forall netws,
        model.GetNetworks (db w) = Ok netws ->
        (forall d n, model.GetContainers d = Ok tainrs ->
                     model.GetContainers (model.DeleteNetwork n d).2
                       = Ok tainrs) ->
        exists done rest,
          filter (prunable tainrs) netws = (done ++ rest)%list
          /\ (libpod.NetworkPrune w).2 = setDB (networksDeleted done (db w)) w
          /\ ((rest = []
               /\ (libpod.NetworkPrune w).1 =
                    JSONResponse http.StatusOK
                      (JArray (libpod.networkToLibpodJSON <$> done)))
              \/ (exists done' n err,
                    done = (done' ++ [n])%list
                    /\ (model.DeleteNetwork n (networksDeleted done' (db w))).1
                         = Some err
                    /\ (libpod.NetworkPrune w).1 =
                         ErrorResponse http.StatusNotFound err)))
  /\ (forall (s : store.t) (k : K) (log : list LogEntry),
        (forall id' netw',
            model.GetNetworkByNameOrID id' s = Ok netw' ->
            (model.DeleteNetwork netw' s).1 = None)
        /\ (NoDup (Network.ID <$> store.networks s) ->
            libpod.NetworkPrune (Build_World s k log) =
              (JSONResponse http.StatusOK
                 (JArray (libpod.networkToLibpodJSON
                            <$> filter (prunable (store.containers s))
                                       (store.networks s))),
               Build_World
                 (store.setNetworks s
                    (filter (fun n => ~ prunable (store.containers s) n)
                            (store.networks s))) k log))).
Proof.
  intros Hnet Hlist.
  pose proof (members_attached tainrs netw) as Hmem.
  assert (Hdelete :
    libpod.NetworkDelete id w =
      if IsPredefined netw then
        (ErrorResponse http.StatusForbidden
           (fmt.Errorf (Network.Name netw
              ++ " is a pre-defined network and cannot be removed")), w)
      else if decide (attached netw tainrs) then
        (ErrorResponse http.StatusConflict
           (fmt.Errorf "cannot delete network, containers attached"), w)
      else
        match model.DeleteNetwork netw (db w) with
        | (Some err, d2) => (ErrorResponse http.StatusNotFound err, setDB d2 w)
        | (None, d2) =>
          (JSONResponse http.StatusOK
             (JArray [libpod.networkToLibpodJSON netw]), setDB d2 w)
        end).
  { unfold libpod.NetworkDelete. rewrite Hnet.
    destruct (IsPredefined netw); [done|].
    rewrite (getContainersInNetwork_listed tainrs) by done.
    case_bool_decide as Hsize;
      destruct (decide (attached netw tainrs)) as [Hatt|Hatt]; tauto. }
  split; [|split; [|split; [|split; [|split]]]].
  - intros Hpre. by rewrite Hdelete, Hpre.
  - intros Hpre Hatt. rewrite Hdelete, Hpre. by rewrite decide_True.
  - intros Hpre Hfree. rewrite Hdelete, Hpre. rewrite decide_False by done.
    destruct (model.DeleteNetwork netw (db w)) as [[err|] d2]; simpl.
    + split; [done|]. split; [done|]. by intros err' [= <-].
    + done.
  - rewrite Hdelete. destruct (IsPredefined netw).
    { simpl. split; [done|]. by intros [? _]. }
    destruct (decide (attached netw tainrs)) as [Hatt|Hfree].
    { simpl. split; [done|]. by intros (_ & ? & _). }
    destruct (model.DeleteNetwork netw (db w)) as [[err|] d2]; simpl.
    + split; [done|]. by intros (_ & _ & ?).
    + done.
  - intros netws Hnets Hstable.
    destruct (pruneNetworks_any_store tainrs netws [] w Hstable Hlist)
      as (done & rest & Hfilter & Hworld & Hresult).
    exists done, rest. split; [done|].
    unfold libpod.NetworkPrune. rewrite Hnets.
    destruct (libpod.pruneNetworks netws [] w) as [[pruned|err] w'];
      cbn [fst snd] in *; (split; [done|]).
    + destruct Hresult as [[-> [= ->]]|(? & ? & ? & _ & _ & [=])]. by left.
    + destruct Hresult as [[_ [=]]|(done' & n & err' & -> & Hfail & [= ->])].
      right. by exists done', n, err'.
  - intros s k log. split.
    + intros id' netw' Hnet'. apply byNameOrID_Ok in Hnet'.
      change (model.DeleteNetwork netw' s) with (store.DeleteNetwork netw' s).
      by rewrite store_DeleteNetwork_present.
    + intros Hnd. unfold libpod.NetworkPrune. simpl.
      rewrite pruneNetworks_store by done. simpl. do 3 f_equal.
      apply filter_ext_elem. intros x Hx. unfold untouchedBy.
      rewrite Forall_forall. split.
      * intros Hall Hp. apply (Hall x); [|done].
        apply list_elem_of_filter. by split.
      * intros Hnp n [Hp Hn]%list_elem_of_filter Heq.
        apply Hnp.
        by rewrite (NoDup_fmap_elem Network.ID _ x n Hnd Hx Hn Heq).
Qed.
End SweepsOnAnyStore.

(** * The properties on the reference environment *)

Import reference.

(** The cases of the repository's [TestVolumeMatch]. *)
Example TestVolumeMatch :
  Volume.Match myvolume "label" "env" "test" = (true, None)
  /\ Volume.Match myvolume "label" "env" "prod" = (false, None)
  /\ Volume.Match myvolume "label" "missing" "test" = (false, None)
  /\ Volume.Match myvolume "name" "myvolume" "" = (true, None)
  /\ Volume.Match myvolume "name" "other" "" = (false, None)
  /\ Volume.Match myvolume "name" "my.*" "" = (true, None)
  /\ Volume.Match myvolume "driver" "local" "" = (true, None)
  /\ Volume.Match myvolume "driver" "nfs" "" = (false, None)
  /\ Volume.Match myvolume "unknown" "foo" "bar" = (true, None).
Proof. vm_compute. repeat split. Qed.

(** C6 on [myvolume]: its own name, a pattern that matches it, and a pattern
    that does not compile. *)
Lemma Match_name_exact_then_regexp_witness :
  Volume.Match myvolume "name" "myvolume" "" = (true, None)
  /\ Volume.Match myvolume "name" "my.*" "" = (true, None)
  /\ Volume.Match myvolume "name" "my(" "" =
       (false, Some (re2.parseError "missing closing )")).
Proof.
  destruct (Match_name_exact_then_regexp myvolume "myvolume" "")
    as (Hexact & _ & _).
  destruct (Match_name_exact_then_regexp myvolume "my.*" "")
    as (_ & Hmatch & _).
  destruct (Match_name_exact_then_regexp myvolume "my(" "")
    as (_ & _ & Hbad).
  split; [|split].
  - apply Hexact. reflexivity.
  - apply Hmatch; [discriminate | vm_compute; reflexivity].
  - apply (Hbad ltac:(discriminate) false). vm_compute. reflexivity.
Defined.

(** C7 on [myvolume]. *)
Lemma Match_driver_label_unknown_witness :
  Volume.Match myvolume "driver" "nfs" "" = (false, None)
  /\ Volume.Match myvolume "label" "env" "test" = (true, None)
  /\ Volume.Match myvolume "status" "foo" "bar" = (true, None).
Proof.
  destruct (Match_driver_label_unknown myvolume "nfs" "") as (Hdriver & _ & _).
  destruct (Match_driver_label_unknown myvolume "env" "test") as (_ & Hlabel & _).
  destruct (Match_driver_label_unknown myvolume "foo" "bar") as (_ & _ & Hother).
  split; [|split].
  - rewrite Hdriver. reflexivity.
  - rewrite Hlabel. reflexivity.
  - apply Hother; discriminate.
Defined.

(** C8 on [longname]: 63 bytes are kept. *)
Lemma getVolumePVCName_deterministic_bounded_witness :
  backend.getVolumePVCName kubedock longname =
    "kubedock-vol-integration-tests-postgres-data-directory-for-the-"
  /\ String.length (backend.getVolumePVCName kubedock longname) = 63.
Proof.
  destruct (getVolumePVCName_deterministic_bounded (K := cluster)
              kubedock kubedock longname longname)
    as (_ & _ & [_ Hcut] & _).
  split; [reflexivity|]. apply Hcut. vm_compute. lia.
Defined.

(** C3 on the running cluster, which holds the claim of [myvolume] already. *)
Lemma CreateVolume_already_exists_is_success_witness :
  exists vol' log',
    backend.CreateVolume kubedock myvolume running [] =
      Returns (vol', None, running, log').
Proof.
  destruct (CreateVolume_already_exists_is_success kubedock myvolume running [])
    as (Hexists & _ & _).
  apply (Hexists {| quantity := "1Gi" |}
           (StatusError StatusReasonAlreadyExists
              "persistentvolumeclaims kubedock-vol-myvolume already exists"));
    reflexivity.
Defined.

(** C9 on [cache], whose claim the cluster does not hold: the backend
    succeeds and the endpoint answers 204. *)
Lemma VolumeDelete_tolerates_backend_failure_witness :
  (exists log', backend.DeleteVolume kubedock cache running [] = (None, running, log'))
  /\ (docker.VolumeDelete kubedock "cache" world).1 =
       HeaderResponse http.StatusNoContent
  /\ (docker.VolumeDelete kubedock "cache" worldDown).1 =
       HeaderResponse http.StatusNoContent.
Proof.
  destruct (VolumeDelete_tolerates_backend_failure kubedock "cache" cache world)
    as (Hnotfound & Hendpoint).
  destruct (VolumeDelete_tolerates_backend_failure kubedock "cache" cache worldDown)
    as (_ & Hdown).
  split; [|split].
  - apply (Hnotfound (StatusError StatusReasonNotFound
             "persistentvolumeclaims kubedock-vol-cache not found"));
      reflexivity.
  - apply Hendpoint; reflexivity.
  - apply Hdown; reflexivity.
Defined.

(** C2 on the reference store, which holds [cache]. *)
Lemma VolumeCreate_existing_name_is_returned_witness :
  docker.VolumeCreate kubedock
    (Ok {| docker.Name := "cache"; docker.Driver := "nfs";
           docker.DriverOpts := ∅; docker.Labels := ∅ |}) worldDown =
    Returns (JSONResponse http.StatusCreated (docker.volumeToJSON cache), worldDown)
  /\ libpod.VolumeCreate kubedock
       (Ok {| libpod.Name := "cache"; libpod.Driver := "";
              libpod.Options := ∅; libpod.Labels := ∅ |}) worldDown =
       Returns (JSONResponse http.StatusCreated
                  (libpod.volumeToLibpodJSON cache), worldDown).
Proof.
  destruct (VolumeCreate_existing_name_is_returned kubedock
              entities down [] "cache" cache
              {| docker.Name := "cache"; docker.Driver := "nfs";
                 docker.DriverOpts := ∅; docker.Labels := ∅ |}
              {| libpod.Name := "cache"; libpod.Driver := "";
                 libpod.Options := ∅; libpod.Labels := ∅ |})
    as (existing & _ & _ & Hsame & Hdocker & Hlibpod);
    [set_solver|reflexivity|reflexivity|reflexivity|].
  assert (Hcache : existing = cache) by (apply Hsame; by computed).
  subst existing. by split.
Defined.

(** The sweep of the reference store while the API server is down: both
    volumes leave the store and are reported. *)
Example VolumesPrune_cluster_down :
  (docker.VolumesPrune kubedock worldDown).1 =
    JSONResponse http.StatusOK
      (JObject [("VolumesDeleted", JStrings ["myvolume"; "cache"]);
                ("SpaceReclaimed", JInt 0)])
  /\ store.volumes (db (docker.VolumesPrune kubedock worldDown).2) = []
  /\ length (klog (docker.VolumesPrune kubedock worldDown).2) = 2.
Proof. vm_compute. repeat split. Qed.



(** C5 on the crowded store: [api], whose stored aliases are [db] and [web],
    joins [frontnet] as [Web], [DB], [API] and [web]. *)
Lemma NetworkConnect_merges_aliases_witness :
  (exists netw tainr stored,
      model.GetNetworkByNameOrID "frontnet" crowded = Ok netw
      /\ model.GetContainerByNameOrID "api" crowded = Ok tainr
      /\ model.SaveContainer stored crowded =
           (None, db (libpod.NetworkConnect "frontnet"
                        (Ok {| libpod.Container := "api";
                               libpod.Aliases := ["Web"; "DB"; "API"; "web"] |})
                        worldCrowded).2)
      /\ Container.ID stored = Container.ID tainr
      /\ Network.ID netw ∈ Container.Networks stored
      /\ Container.NetworkAliases stored =
           libpod.mergeAliases tainr ["Web"; "DB"; "API"; "web"])
  /\ NoDup (libpod.mergeAliases seasoned ["Web"; "DB"; "API"; "web"])
  /\ (exists added,
        libpod.mergeAliases seasoned ["Web"; "DB"; "API"; "web"]
          = (["db"; "web"] ++ added)%list
        /\ forall x, x ∈ added ->
             exists a, a ∈ ["Web"; "DB"; "API"; "web"]
                       /\ x = strings.ToLower a)
  /\ (forall a, a ∈ ["Web"; "DB"; "API"; "web"] ->
        length (filter (fun x => x = strings.ToLower a)
                  (libpod.mergeAliases seasoned ["Web"; "DB"; "API"; "web"]))
        = 1)
  /\ NoDup (strings.ToLower
              <$> libpod.mergeAliases seasoned ["Web"; "DB"; "API"; "web"]).
Proof.
  destruct (NetworkConnect_merges_aliases "frontnet"
              {| libpod.Container := "api";
                 libpod.Aliases := ["Web"; "DB"; "API"; "web"] |} worldCrowded)
    as (Hconnect & Hmerge & _).
  assert (Hstored : NoDup (Container.NetworkAliases seasoned)) by computed.
  pose proof (Hmerge seasoned Hstored) as Hm. cbv zeta in Hm.
  destruct Hm as (Hnd & Hadded & Hcount & Hfold).
  split; [|split; [|split; [|split]]].
  - eapply Hconnect; [apply surjective_pairing|reflexivity].
  - exact Hnd.
  - exact Hadded.
  - exact Hcount.
  - apply Hfold; by computed.
Defined.

(** The aliases in the crowded store after that request: [db] and [web] are
    kept as they were, and [api] is added once. *)
Example NetworkConnect_crowded_aliases :
  Container.NetworkAliases <$>
    store.containers
      (db (libpod.NetworkConnect "frontnet"
             (Ok {| libpod.Container := "api";
                    libpod.Aliases := ["Web"; "DB"; "API"; "web"] |})
             worldCrowded).2)
  = [[]; ["db"; "web"; "api"]; ["Web"]; ["web"; "web"]].
Proof. vm_compute. reflexivity. Qed.

(** C5 as stated fails for a container whose stored aliases are not lower
    case or not distinct: after a successful connect with the alias [web],
    [legacy] holds the two aliases [Web] and [web], equal up to case, and
    [doubled] holds [web] twice. *)
Lemma NetworkConnect_keeps_stored_aliases_as_they_are :
  statusOf (libpod.NetworkConnect "frontnet"
              (Ok {| libpod.Container := "legacy";
                     libpod.Aliases := ["web"] |}) worldCrowded).1
    = http.StatusOK
  /\ Container.NetworkAliases <$>
       store.containers
         (db (libpod.NetworkConnect "frontnet"
                (Ok {| libpod.Container := "legacy";
                       libpod.Aliases := ["web"] |}) worldCrowded).2)
     = [[]; ["db"; "web"]; ["Web"; "web"]; ["web"; "web"]]
  /\ strings.ToLower "Web" = "web"
  /\ statusOf (libpod.NetworkConnect "frontnet"
                 (Ok {| libpod.Container := "doubled";
                        libpod.Aliases := ["web"] |}) worldCrowded).1
       = http.StatusOK
  /\ Container.NetworkAliases <$>
       store.containers
         (db (libpod.NetworkConnect "frontnet"
                (Ok {| libpod.Container := "doubled";
                       libpod.Aliases := ["web"] |}) worldCrowded).2)
     = [[]; ["db"; "web"]; ["Web"]; ["web"; "web"]]
  /\ length (filter (fun x => x = strings.ToLower "web")
               (libpod.mergeAliases doubled ["web"])) = 2.
Proof. vm_compute. repeat split. Qed.

(** The aliases of [web] in the reference store after it joins [frontnet] as
    [Web], [web] and [API]. *)
Example NetworkConnect_stored_aliases :
  Container.NetworkAliases <$>
    store.containers
      (db (libpod.NetworkConnect "frontnet"
             (Ok {| libpod.Container := "web";
                    libpod.Aliases := ["Web"; "web"; "API"] |}) world).2)
  = [["web"; "api"]].
Proof. vm_compute. reflexivity. Qed.


(** C4 on the reference store, where [web] is attached to [bridge] and
    [backnet] and no container to [frontnet]. *)
Lemma NetworkDelete_only_unused_networks_witness :
  libpod.NetworkDelete "bridge" world =
    (ErrorResponse http.StatusForbidden
       (fmt.Errorf "bridge is a pre-defined network and cannot be removed"),
     world)
  /\ libpod.NetworkDelete "backnet" world =
       (ErrorResponse http.StatusConflict
          (fmt.Errorf "cannot delete network, containers attached"), world)
  /\ (libpod.NetworkDelete "frontnet" world).1 =
       JSONResponse http.StatusOK (JArray [libpod.networkToLibpodJSON frontnet])
  /\ (libpod.NetworkDelete "frontnet" world).2 =
       Build_World (store.setNetworks entities [bridge; backnet]) running []
  /\ statusOf (libpod.NetworkDelete "frontnet" world).1 = http.StatusOK
  /\ (exists done rest,
        filter (prunable [web]) [bridge; backnet; frontnet]
          = (done ++ rest)%list
        /\ (libpod.NetworkPrune world).2
             = setDB (networksDeleted done entities) world
        /\ ((rest = []
             /\ (libpod.NetworkPrune world).1 =
                  JSONResponse http.StatusOK
                    (JArray (libpod.networkToLibpodJSON <$> done)))
            \/ (exists done' n err,
                  done = (done' ++ [n])%list
                  /\ (model.DeleteNetwork n (networksDeleted done' entities)).1
                       = Some err
                  /\ (libpod.NetworkPrune world).1 =
                       ErrorResponse http.StatusNotFound err)))
  /\ libpod.NetworkPrune world =
       (JSONResponse http.StatusOK (JArray [libpod.networkToLibpodJSON frontnet]),
        Build_World (store.setNetworks entities [bridge; backnet]) running []).
Proof.
  assert (Hbridge : model.GetNetworkByNameOrID "bridge" (db world) = Ok bridge)
    by reflexivity.
  assert (Hback : model.GetNetworkByNameOrID "backnet" (db world) = Ok backnet)
    by reflexivity.
  assert (Hfront : model.GetNetworkByNameOrID "frontnet" (db world) = Ok frontnet)
    by reflexivity.
  assert (Hlist : model.GetContainers (db world) = Ok [web]) by reflexivity.
  destruct (NetworkDelete_only_unused_networks "bridge" bridge [web] world
              Hbridge Hlist) as (Hforbidden & _).
  destruct (NetworkDelete_only_unused_networks "backnet" backnet [web] world
              Hback Hlist) as (_ & Hconflict & _).
  destruct (NetworkDelete_only_unused_networks "frontnet" frontnet [web] world
              Hfront Hlist) as (_ & _ & Hfree & Hiff & Hprune & Hstore).
  assert (Hunused : ~ attached frontnet [web]) by computed.
  destruct (Hfree eq_refl Hunused) as (Hworld & Hok & _).
  destruct (Hstore entities running []) as (_ & Hsweep).
  split; [|split; [|split; [|split; [|split; [|split]]]]].
  - apply Hforbidden. reflexivity.
  - apply Hconflict; [reflexivity | by computed].
  - apply Hok. reflexivity.
  - exact Hworld.
  - apply Hiff. split; [reflexivity|]. split; [exact Hunused | reflexivity].
  - apply (Hprune [bridge; backnet; frontnet]); [reflexivity|].
    intros d n Hd. simpl in *. unfold store.DeleteNetwork.
    destruct (store.remove Network.ID n (store.networks d)). exact Hd.
  - apply Hsweep. by computed.
Defined.

(** C4 as stated fails twice. The predefined [bridge], to which [web] is
    attached, is refused with 403 and not with 409 Conflict. And while the
    store cannot list its containers, [backnet], to which [web] is attached,
    is deleted with 200, and the sweep removes it as well. *)
Lemma NetworkDelete_of_an_attached_network :
  IsPredefined bridge = true
  /\ bool_decide (attached bridge (store.containers entities)) = true
  /\ statusOf (libpod.NetworkDelete "bridge" world).1 = http.StatusForbidden
  /\ (http.StatusForbidden =? http.StatusConflict)%Z = false
  /\ IsPredefined backnet = false
  /\ bool_decide (attached backnet (store.containers (held (db worldLost))))
       = true
  /\ statusOf (libpod.NetworkDelete "backnet" worldLost).1 = http.StatusOK
  /\ Network.Name <$>
       store.networks (held (db (libpod.NetworkDelete "backnet" worldLost).2))
     = ["bridge"; "frontnet"]
  /\ statusOf (libpod.NetworkPrune worldLost).1 = http.StatusOK
  /\ Network.Name <$>
       store.networks (held (db (libpod.NetworkPrune worldLost).2))
     = ["bridge"].
Proof. vm_compute. repeat split. Qed.



(** ** The further properties on the reference environment *)

(** A create request for the free name [data] on the running cluster: the
    volume is saved with the driver [local] and answered 201. *)
Lemma VolumeCreate_new_name_saves_after_backend_witness :
  exists w',
    docker.VolumeCreate kubedock
      (Ok {| docker.Name := "data"; docker.Driver := "";
             docker.DriverOpts := ∅; docker.Labels := ∅ |}) world
    = Returns
        (JSONResponse http.StatusCreated
           (docker.volumeToJSON
              {| Volume.ID := "id-2"; Volume.ShortID := "id-2";
                 Volume.Name := "data"; Volume.Driver := "local";
                 Volume.Labels := ∅;
                 Volume.Mountpoint := "/var/lib/kubedock/volumes/data";
                 Volume.Created := 2%Z |}), w')
    /\ Volume.Name <$> store.volumes (db w') = ["myvolume"; "cache"; "data"].
Proof.
  destruct (VolumeCreate_new_name_saves_after_backend kubedock
              "data" "" ∅ ∅ world store.errNotFound {| quantity := "1Gi" |})
    as (dresp & lresp & w' & Hdocker & _ & _ & _ & Hsaved);
    [reflexivity|reflexivity|].
  destruct Hsaved as (Hdb & Hok & _); [reflexivity|].
  destruct Hok as [-> _]; [reflexivity|].
  exists w'. split; [exact Hdocker|]. rewrite Hdb. reflexivity.
Defined.

(** Disconnecting [web] from [backnet], of which it is a member, and from
    [frontnet], of which it is not. *)
Lemma NetworkDisconnect_removes_membership_only_witness :
  (libpod.NetworkDisconnect "backnet"
     (Ok {| libpod.DisconnectContainer := "web" |}) world).1
    = HeaderResponse http.StatusOK
  /\ statusOf (libpod.NetworkDisconnect "frontnet"
                 (Ok {| libpod.DisconnectContainer := "web" |}) world).1
     = http.StatusNotFound.
Proof.
  destruct (NetworkDisconnect_removes_membership_only "backnet"
              {| libpod.DisconnectContainer := "web" |} backnet web world)
    as [_ Hmember]; [reflexivity|reflexivity|reflexivity|].
  destruct (NetworkDisconnect_removes_membership_only "frontnet"
              {| libpod.DisconnectContainer := "web" |} frontnet web world)
    as [Hstranger _]; [reflexivity|reflexivity|reflexivity|].
  split.
  - apply Hmember; [by computed|reflexivity].
  - apply Hstranger. by computed.
Defined.

(** While the containers cannot be listed, [backnet] is deleted although
    [web] is attached to it. *)
Lemma NetworkDelete_deletes_when_containers_unlisted_witness :
  Network.ID backnet ∈ Container.Networks web
  /\ (libpod.NetworkDelete "backnet" worldLost).1 =
       JSONResponse http.StatusOK (JArray [libpod.networkToLibpodJSON backnet])
  /\ klog (libpod.NetworkDelete "backnet" worldLost).2 =
       [Errorf "error retrieving containers: connection lost"].
Proof.
  destruct (NetworkDelete_deletes_when_containers_unlisted "backnet" backnet
              (errorString "connection lost") worldLost)
    as (_ & Hlog & Hdeleted); [reflexivity|reflexivity|reflexivity|].
  split; [by computed|]. split; [by apply Hdeleted|exact Hlog].
Defined.

(** Deleting [cache] and asking for it again. *)
Lemma VolumeDelete_then_unknown_witness :
  (docker.VolumeDelete kubedock "cache" world).1
    = HeaderResponse http.StatusNoContent
  /\ statusOf (libpod.VolumeExists "cache"
                 (docker.VolumeDelete kubedock "cache" world).2).1
     = http.StatusNotFound.
Proof.
  destruct (VolumeDelete_then_unknown kubedock entities running [] "cache" cache)
    as (Hdeleted & _ & Hexists & _); [reflexivity| |].
  - intros x Hx Hid. unfold entities in Hx. simpl in Hx.
    apply elem_of_cons in Hx as [->|Hx]; [by destruct Hid|].
    apply list_elem_of_singleton in Hx as ->. done.
  - split; [exact Hdeleted|].
    change (Build_World entities running []) with world in Hexists.
    by rewrite Hexists.
Defined.

(** [longname] and [longname'] share a claim. *)
Lemma getVolumePVCName_keeps_50_bytes_witness :
  Volume.Name longname <> Volume.Name longname'
  /\ backend.getVolumePVCName kubedock longname =
       backend.getVolumePVCName kubedock longname'.
Proof.
  destruct (getVolumePVCName_keeps_50_bytes kubedock longname longname')
    as [_ Hsame].
  split; [discriminate|]. apply Hsame. reflexivity.
Defined.

(** With a size that does not parse [CreateVolume] panics; on a cluster
    that is down it returns the error and leaves the volume as it was. *)
Lemma CreateVolume_one_call_mountpoint_only_witness :
  backend.CreateVolume unsized cache running [] = Panics
  /\ exists err, backend.CreateVolume kubedock cache down []
                 = Returns (cache, Some err, down, []).
Proof.
  destruct (CreateVolume_one_call_mountpoint_only unsized cache running [])
    as [Hpanic _].
  destruct (CreateVolume_one_call_mountpoint_only kubedock cache down [])
    as [_ Hframe].
  split; [by apply Hpanic|].
  destruct (backend.CreateVolume kubedock cache down [])
    as [[[[vol' err] k'] log']|] eqn:Hcreate; [|discriminate Hcreate].
  destruct (Hframe vol' err k' log' eq_refl) as ((size & _ & Hk) & _ & Hsame).
  destruct err as [e|]; [|discriminate Hcreate].
  destruct (Hsame e eq_refl) as [-> ->]. exists e.
  rewrite Hk. reflexivity.
Defined.

(** On a cluster that is down, [DeleteVolume] hands the failure back, and
    its reason with it. *)
Lemma DeleteVolume_fails_on_other_errors_witness :
  (backend.DeleteVolume kubedock cache down []).1.1 =
    Some (fmt.Errorfw "failed to delete PVC for volume cache: " unavailable)
  /\ errors.ReasonForError
       (fmt.Errorfw "failed to delete PVC for volume cache: " unavailable)
     = StatusReasonOther "ServiceUnavailable".
Proof.
  destruct (DeleteVolume_fails_on_other_errors kubedock cache down [])
    as (_ & Hother & _).
  destruct (Hother unavailable eq_refl eq_refl) as (Herr & Hreason & _).
  split; [exact Herr|exact Hreason].
Defined.

(** The bulk deletion on the cluster that holds both claims, and on the
    cluster that is down. *)
Lemma DeleteVolumes_best_effort_witness :
  (exists more,
      backend.DeleteVolumes kubedock "kubedock=true" stocked [] =
        (None, {| claims := ∅; reachable := true |}, more))
  /\ backend.DeleteVolumes kubedock "kubedock=true" down [] =
       (Some unavailable, down, []).
Proof.
  destruct (DeleteVolumes_best_effort kubedock "kubedock=true" stocked [])
    as [_ Hlisted].
  destruct (DeleteVolumes_best_effort kubedock "kubedock=true" down [])
    as [Hfailed _].
  split; [|by apply Hfailed].
  destruct (Hlisted _ eq_refl) as (more & Hswept & _).
  exists more. rewrite Hswept. reflexivity.
Defined.

(** The named volumes [cache] and [myvolume] on a pod with two containers,
    and on a pod without containers. *)
Lemma addNamedVolumes_appends_claims_witness :
  (exists pod',
      backend.addNamedVolumes kubedock web pod
        [("/var/cache", cache); ("/data", myvolume)] = Returns pod'
      /\ PodVolume.Name <$> Pod.Volumes pod' =
           ["scratch"; "nv-cache"; "nv-myvolume"]
      /\ (fun c => VolumeMount.MountPath <$> PodContainer.VolumeMounts c)
           <$> Pod.Containers pod' = [["/tmp"; "/var/cache"; "/data"]; []])
  /\ backend.addNamedVolumes kubedock web bare [("/var/cache", cache)] = Panics.
Proof.
  destruct (addNamedVolumes_appends_claims kubedock web pod
              [("/var/cache", cache); ("/data", myvolume)])
    as (_ & Happends & _).
  destruct (addNamedVolumes_appends_claims kubedock web bare
              [("/var/cache", cache)]) as (Hpanics & _ & _).
  split; [|by apply Hpanics].
  eexists. split; [by apply Happends|]. split; reflexivity.
Defined.

(** Creating [data] and sending the request again. *)
Lemma VolumeCreate_again_same_answer_witness :
  exists resp w1,
    statusOf resp = http.StatusCreated
    /\ docker.VolumeCreate kubedock
         (Ok {| docker.Name := "data"; docker.Driver := "";
                docker.DriverOpts := ∅; docker.Labels := ∅ |}) world
       = Returns (resp, w1)
    /\ docker.VolumeCreate kubedock
         (Ok {| docker.Name := "data"; docker.Driver := "";
                docker.DriverOpts := ∅; docker.Labels := ∅ |}) w1
       = Returns (resp, w1).
Proof.
  destruct (VolumeCreate_again_same_answer kubedock entities running []
              {| docker.Name := "data"; docker.Driver := "";
                 docker.DriverOpts := ∅; docker.Labels := ∅ |}
              {| libpod.Name := "data"; libpod.Driver := "";
                 libpod.Options := ∅; libpod.Labels := ∅ |})
    as [Hdocker _].
  destruct (docker.VolumeCreate kubedock
              (Ok {| docker.Name := "data"; docker.Driver := "";
                     docker.DriverOpts := ∅; docker.Labels := ∅ |}) world)
    as [[resp w1]|] eqn:Hfirst; [|discriminate Hfirst].
  assert (Hstatus : statusOf resp = http.StatusCreated).
  { vm_compute in Hfirst. by injection Hfirst as <- _. }
  exists resp, w1. split; [done|]. split; [done|].
  by apply Hdocker.
Defined.

(** The volumes of the reference store under a name filter, and under a
    filter that does not parse. *)
Lemma list_endpoints_filter_in_store_order_witness :
  (libpod.VolumeList "name=my.*" world).1 =
    JSONResponse http.StatusOK (JArray [libpod.volumeToLibpodJSON myvolume])
  /\ (libpod.VolumeList "bogus" world).1 =
       JSONResponse http.StatusOK
         (JArray [libpod.volumeToLibpodJSON myvolume;
                  libpod.volumeToLibpodJSON cache]).
Proof.
  destruct (list_endpoints_filter_in_store_order "name=my.*" world)
    as (Hnamed & _).
  destruct (list_endpoints_filter_in_store_order "bogus" world)
    as (Hbogus & _).
  split.
  - by destruct (Hnamed _ eq_refl) as [_ ->].
  - by destruct (Hbogus _ eq_refl) as [_ ->].
Defined.

(** Creating the network [backnet], which exists, and [metrics], which does
    not. *)
Lemma NetworkCreate_by_name_witness :
  libpod.NetworkCreate
    (Ok {| libpod.NetworkCreateRequest.Name := "backnet";
           libpod.NetworkCreateRequest.Driver := "macvlan";
           libpod.NetworkCreateRequest.Labels := ∅;
           libpod.NetworkCreateRequest.Options := ∅ |}) world
    = (JSONResponse http.StatusOK (libpod.networkToLibpodJSON backnet), world)
  /\ Network.Name <$>
       store.networks
         (db (libpod.NetworkCreate
                (Ok {| libpod.NetworkCreateRequest.Name := "metrics";
                       libpod.NetworkCreateRequest.Driver := "";
                       libpod.NetworkCreateRequest.Labels := ∅;
                       libpod.NetworkCreateRequest.Options := ∅ |}) world).2)
     = ["bridge"; "backnet"; "frontnet"; "metrics"].
Proof.
  destruct (NetworkCreate_by_name
              {| libpod.NetworkCreateRequest.Name := "backnet";
                 libpod.NetworkCreateRequest.Driver := "macvlan";
                 libpod.NetworkCreateRequest.Labels := ∅;
                 libpod.NetworkCreateRequest.Options := ∅ |} world)
    as (Hexisting & _).
  destruct (NetworkCreate_by_name
              {| libpod.NetworkCreateRequest.Name := "metrics";
                 libpod.NetworkCreateRequest.Driver := "";
                 libpod.NetworkCreateRequest.Labels := ∅;
                 libpod.NetworkCreateRequest.Options := ∅ |} world)
    as (_ & Hnew & _).
  split; [by apply Hexisting|].
  destruct (Hnew store.errNotFound eq_refl) as (-> & _). reflexivity.
Defined.
